(** * Hooky: the task state machine of the webhook scheduler

    A shallow embedding of [models/task.go] (NewTask, GetTask, GetTaskByID,
    GetTasks, NextAttemptForTask) and of [restapi/task.go] (PutTask), over a
    small model of the document store the code talks to.

    Conventions.
    - A Go [int]/[int64] is a [Z]; the one Go-side operation that can wrap
      (the negation in NextAttemptForTask) goes through [wrap64].
    - A [bson.ObjectId] is a Go string; fresh ids ([bson.NewObjectId]) and the
      wall clock ([time.Now]) are inputs of the operations that read them.
    - A collection is the list of its documents in insertion order.
    - The cron library ([cron.Parse] followed by [Next]) is a parameter
      [cronNext]: [None] when the expression does not parse. *)

From Stdlib Require Import ZArith String Ascii List Bool Lia.
From stdpp Require Import base gmap strings list.
Import ListNotations.
Local Open Scope Z_scope.
Local Open Scope string_scope.

Module models.

Definition ObjectId := string.

(** Go's signed 64-bit wrap-around. *)
Definition wrap64 (z : Z) : Z := (z + 2 ^ 63) mod 2 ^ 64 - 2 ^ 63.

Definition hexDigit (n : N) : ascii :=
  nth (N.to_nat n) (list_ascii_of_string "0123456789abcdef") "0"%char.

(** [bson.ObjectId.Hex]: two lower-case hex digits per byte. *)
Fixpoint Hex (id : ObjectId) : string :=
  match id with
  | EmptyString => EmptyString
  | String c rest =>
      String (hexDigit (N.div (N_of_ascii c) 16))
        (String (hexDigit (N.modulo (N_of_ascii c) 16)) (Hex rest))
  end.

Inductive error :=
  | ErrCron                 (* cron.Parse rejected the expression *)
  | ErrDup                  (* duplicate key on insert *)
  | ErrNotFound             (* mgo.ErrNotFound *)
  | ErrMaxAttemptsExceeded. (* the retry policy is exhausted *)

#[global] Instance error_eq_dec : EqDecision error.
Proof. solve_decision. Defined.

Record HTTPAuth := { Username : string; Password : string }.

(** Modelled from the spec: the [Retry] struct is declared in a file that is
    not part of the sources at hand. Section 3 gives its fields:
    maxAttempts, factor, min and max (seconds) and the live counter
    attempts. *)
Record Retry := {
  Attempts : Z;
  MaxAttempts : Z;
  Factor : Z;
  Min : Z;
  Max : Z
}.

(** TaskStatuses are the different statuses that a Task can have. *)
Definition TaskStatuses : gmap string bool :=
  <["pending" := true]> (<["retrying" := true]> (<["canceled" := true]>
    (<["success" := true]> (<["error" := true]> ∅)))).

(** The [Task] struct. The fields [HTTPAuth] and [Retry] are named after
    their bson tags, [auth] and [retry], the Go names being those of their
    types. *)
Record Task := {
  ID : ObjectId;
  Account : ObjectId;
  Application : string;
  Name : string;
  Queue : string;
  URL : string;
  auth : HTTPAuth;
  Method : string;
  Headers : gmap string string;
  Payload : string;
  Schedule : string;
  At : Z;
  Status : string;
  Executed : Z;
  Active : bool;
  Errors : Z;
  LastError : Z;
  LastSuccess : Z;
  Executions : Z;
  retry : Retry;
  Deleted : bool
}.

#[global] Instance HTTPAuth_eq_dec : EqDecision HTTPAuth.
Proof. solve_decision. Defined.
#[global] Instance Retry_eq_dec : EqDecision Retry.
Proof. solve_decision. Defined.

(** ErrorRate is the error rate of the task from 0 to 100 percent. *)
Definition ErrorRate (h : Task) : Z :=
  if (Executions h =? 0)%Z then 0
  else Z.quot (wrap64 (Errors h * 100)) (Executions h).

(** ** Documents and updates *)

(** A bson value, as far as the tasks collection holds them. *)
Inductive bval :=
  | BString (s : string)
  | BInt (n : Z)
  | BBool (b : bool)
  | BId (i : ObjectId)
  | BHeaders (h : gmap string string)
  | BRetry (r : Retry)
  | BAuth (a : HTTPAuth).

#[global] Instance bval_eq_dec : EqDecision bval.
Proof. solve_decision. Defined.

(** A stored task: the fields the [Task] struct decodes, and whatever other
    fields updates have added to the document ([updated], [last_retrying],
    ...), which decoding into a [Task] ignores. *)
Record TaskDoc := { row : Task; extra : gmap string bval }.

Definition withRow (t : Task) (d : TaskDoc) : TaskDoc :=
  {| row := t; extra := extra d |}.

Definition set_URL (v : string) (t : Task) : Task :=
  {| ID := ID t; Account := Account t; Application := Application t; Name :=
     Name t; Queue := Queue t; URL := v; auth := auth t; Method := Method t;
     Headers := Headers t; Payload := Payload t; Schedule := Schedule t; At :=
     At t; Status := Status t; Executed := Executed t; Active := Active t;
     Errors := Errors t; LastError := LastError t; LastSuccess := LastSuccess
     t; Executions := Executions t; retry := retry t; Deleted := Deleted t |}.
Definition set_auth (v : HTTPAuth) (t : Task) : Task :=
  {| ID := ID t; Account := Account t; Application := Application t; Name :=
     Name t; Queue := Queue t; URL := URL t; auth := v; Method := Method t;
     Headers := Headers t; Payload := Payload t; Schedule := Schedule t; At :=
     At t; Status := Status t; Executed := Executed t; Active := Active t;
     Errors := Errors t; LastError := LastError t; LastSuccess := LastSuccess
     t; Executions := Executions t; retry := retry t; Deleted := Deleted t |}.
Definition set_Method (v : string) (t : Task) : Task :=
  {| ID := ID t; Account := Account t; Application := Application t; Name :=
     Name t; Queue := Queue t; URL := URL t; auth := auth t; Method := v;
     Headers := Headers t; Payload := Payload t; Schedule := Schedule t; At :=
     At t; Status := Status t; Executed := Executed t; Active := Active t;
     Errors := Errors t; LastError := LastError t; LastSuccess := LastSuccess
     t; Executions := Executions t; retry := retry t; Deleted := Deleted t |}.
Definition set_Headers (v : gmap string string) (t : Task) : Task :=
  {| ID := ID t; Account := Account t; Application := Application t; Name :=
     Name t; Queue := Queue t; URL := URL t; auth := auth t; Method := Method
     t; Headers := v; Payload := Payload t; Schedule := Schedule t; At := At
     t; Status := Status t; Executed := Executed t; Active := Active t; Errors
     := Errors t; LastError := LastError t; LastSuccess := LastSuccess t;
     Executions := Executions t; retry := retry t; Deleted := Deleted t |}.
Definition set_Payload (v : string) (t : Task) : Task :=
  {| ID := ID t; Account := Account t; Application := Application t; Name :=
     Name t; Queue := Queue t; URL := URL t; auth := auth t; Method := Method
     t; Headers := Headers t; Payload := v; Schedule := Schedule t; At := At
     t; Status := Status t; Executed := Executed t; Active := Active t; Errors
     := Errors t; LastError := LastError t; LastSuccess := LastSuccess t;
     Executions := Executions t; retry := retry t; Deleted := Deleted t |}.
Definition set_Schedule (v : string) (t : Task) : Task :=
  {| ID := ID t; Account := Account t; Application := Application t; Name :=
     Name t; Queue := Queue t; URL := URL t; auth := auth t; Method := Method
     t; Headers := Headers t; Payload := Payload t; Schedule := v; At := At t;
     Status := Status t; Executed := Executed t; Active := Active t; Errors :=
     Errors t; LastError := LastError t; LastSuccess := LastSuccess t;
     Executions := Executions t; retry := retry t; Deleted := Deleted t |}.
Definition set_At (v : Z) (t : Task) : Task :=
  {| ID := ID t; Account := Account t; Application := Application t; Name :=
     Name t; Queue := Queue t; URL := URL t; auth := auth t; Method := Method
     t; Headers := Headers t; Payload := Payload t; Schedule := Schedule t; At
     := v; Status := Status t; Executed := Executed t; Active := Active t;
     Errors := Errors t; LastError := LastError t; LastSuccess := LastSuccess
     t; Executions := Executions t; retry := retry t; Deleted := Deleted t |}.
Definition set_Status (v : string) (t : Task) : Task :=
  {| ID := ID t; Account := Account t; Application := Application t; Name :=
     Name t; Queue := Queue t; URL := URL t; auth := auth t; Method := Method
     t; Headers := Headers t; Payload := Payload t; Schedule := Schedule t; At
     := At t; Status := v; Executed := Executed t; Active := Active t; Errors
     := Errors t; LastError := LastError t; LastSuccess := LastSuccess t;
     Executions := Executions t; retry := retry t; Deleted := Deleted t |}.
Definition set_Executed (v : Z) (t : Task) : Task :=
  {| ID := ID t; Account := Account t; Application := Application t; Name :=
     Name t; Queue := Queue t; URL := URL t; auth := auth t; Method := Method
     t; Headers := Headers t; Payload := Payload t; Schedule := Schedule t; At
     := At t; Status := Status t; Executed := v; Active := Active t; Errors :=
     Errors t; LastError := LastError t; LastSuccess := LastSuccess t;
     Executions := Executions t; retry := retry t; Deleted := Deleted t |}.
Definition set_Active (v : bool) (t : Task) : Task :=
  {| ID := ID t; Account := Account t; Application := Application t; Name :=
     Name t; Queue := Queue t; URL := URL t; auth := auth t; Method := Method
     t; Headers := Headers t; Payload := Payload t; Schedule := Schedule t; At
     := At t; Status := Status t; Executed := Executed t; Active := v; Errors
     := Errors t; LastError := LastError t; LastSuccess := LastSuccess t;
     Executions := Executions t; retry := retry t; Deleted := Deleted t |}.
Definition set_Errors (v : Z) (t : Task) : Task :=
  {| ID := ID t; Account := Account t; Application := Application t; Name :=
     Name t; Queue := Queue t; URL := URL t; auth := auth t; Method := Method
     t; Headers := Headers t; Payload := Payload t; Schedule := Schedule t; At
     := At t; Status := Status t; Executed := Executed t; Active := Active t;
     Errors := v; LastError := LastError t; LastSuccess := LastSuccess t;
     Executions := Executions t; retry := retry t; Deleted := Deleted t |}.
Definition set_LastError (v : Z) (t : Task) : Task :=
  {| ID := ID t; Account := Account t; Application := Application t; Name :=
     Name t; Queue := Queue t; URL := URL t; auth := auth t; Method := Method
     t; Headers := Headers t; Payload := Payload t; Schedule := Schedule t; At
     := At t; Status := Status t; Executed := Executed t; Active := Active t;
     Errors := Errors t; LastError := v; LastSuccess := LastSuccess t;
     Executions := Executions t; retry := retry t; Deleted := Deleted t |}.
Definition set_LastSuccess (v : Z) (t : Task) : Task :=
  {| ID := ID t; Account := Account t; Application := Application t; Name :=
     Name t; Queue := Queue t; URL := URL t; auth := auth t; Method := Method
     t; Headers := Headers t; Payload := Payload t; Schedule := Schedule t; At
     := At t; Status := Status t; Executed := Executed t; Active := Active t;
     Errors := Errors t; LastError := LastError t; LastSuccess := v;
     Executions := Executions t; retry := retry t; Deleted := Deleted t |}.
Definition set_Executions (v : Z) (t : Task) : Task :=
  {| ID := ID t; Account := Account t; Application := Application t; Name :=
     Name t; Queue := Queue t; URL := URL t; auth := auth t; Method := Method
     t; Headers := Headers t; Payload := Payload t; Schedule := Schedule t; At
     := At t; Status := Status t; Executed := Executed t; Active := Active t;
     Errors := Errors t; LastError := LastError t; LastSuccess := LastSuccess
     t; Executions := v; retry := retry t; Deleted := Deleted t |}.
Definition set_retry (v : Retry) (t : Task) : Task :=
  {| ID := ID t; Account := Account t; Application := Application t; Name :=
     Name t; Queue := Queue t; URL := URL t; auth := auth t; Method := Method
     t; Headers := Headers t; Payload := Payload t; Schedule := Schedule t; At
     := At t; Status := Status t; Executed := Executed t; Active := Active t;
     Errors := Errors t; LastError := LastError t; LastSuccess := LastSuccess
     t; Executions := Executions t; retry := v; Deleted := Deleted t |}.
Definition set_Deleted (v : bool) (t : Task) : Task :=
  {| ID := ID t; Account := Account t; Application := Application t; Name :=
     Name t; Queue := Queue t; URL := URL t; auth := auth t; Method := Method
     t; Headers := Headers t; Payload := Payload t; Schedule := Schedule t; At
     := At t; Status := Status t; Executed := Executed t; Active := Active t;
     Errors := Errors t; LastError := LastError t; LastSuccess := LastSuccess
     t; Executions := Executions t; retry := retry t; Deleted := v |}.

Definition set_Attempts (v : Z) (r : Retry) : Retry :=
  {| Attempts := v; MaxAttempts := MaxAttempts r; Factor := Factor r;
     Min := Min r; Max := Max r |}.

(** [$set] of one field, by its bson name. A value of the wrong type for a
    field of the struct leaves the document alone: no update of this code
    base writes one. *)
Definition setField (k : string) (v : bval) (d : TaskDoc) : TaskDoc :=
  let t := row d in
  if k =? "url" then match v with BString s => withRow (set_URL s t) d | _ => d end
  else if k =? "auth" then match v with BAuth a => withRow (set_auth a t) d | _ => d end
  else if k =? "method" then match v with BString s => withRow (set_Method s t) d | _ => d end
  else if k =? "headers" then match v with BHeaders h => withRow (set_Headers h t) d | _ => d end
  else if k =? "payload" then match v with BString s => withRow (set_Payload s t) d | _ => d end
  else if k =? "schedule" then match v with BString s => withRow (set_Schedule s t) d | _ => d end
  else if k =? "at" then match v with BInt n => withRow (set_At n t) d | _ => d end
  else if k =? "status" then match v with BString s => withRow (set_Status s t) d | _ => d end
  else if k =? "executed" then match v with BInt n => withRow (set_Executed n t) d | _ => d end
  else if k =? "active" then match v with BBool b => withRow (set_Active b t) d | _ => d end
  else if k =? "errors" then match v with BInt n => withRow (set_Errors n t) d | _ => d end
  else if k =? "last_error" then match v with BInt n => withRow (set_LastError n t) d | _ => d end
  else if k =? "last_success" then match v with BInt n => withRow (set_LastSuccess n t) d | _ => d end
  else if k =? "executions" then match v with BInt n => withRow (set_Executions n t) d | _ => d end
  else if k =? "retry" then match v with BRetry r => withRow (set_retry r t) d | _ => d end
  else if k =? "deleted" then match v with BBool b => withRow (set_Deleted b t) d | _ => d end
  else {| row := t; extra := <[k := v]> (extra d) |}.

(** [$inc] of one numeric field (the store's own arithmetic, on [Z]). *)
Definition incField (k : string) (n : Z) (d : TaskDoc) : TaskDoc :=
  let t := row d in
  if k =? "executions" then withRow (set_Executions (Executions t + n) t) d
  else if k =? "errors" then withRow (set_Errors (Errors t + n) t) d
  else if k =? "retry.attempts" then
    withRow (set_retry (set_Attempts (Attempts (retry t) + n) (retry t)) t) d
  else
    let old := match extra d !! k with Some (BInt m) => m | _ => 0 end in
    {| row := t; extra := <[k := BInt (old + n)]> (extra d) |}.

(** [mgo.Change.Update]: the [$set] and the [$inc] documents. Their keys are
    pairwise distinct in every update built below, so the order in which the
    pairs are applied is immaterial. *)
Record Change := {
  set_ : list (string * bval);
  inc_ : list (string * Z)
}.

Definition applyChange (ch : Change) (d : TaskDoc) : TaskDoc :=
  fold_left (fun d kn => incField (fst kn) (snd kn) d) (inc_ ch)
    (fold_left (fun d kv => setField (fst kv) (snd kv) d) (set_ ch) d).

(** Reading a field by its bson name. *)
Definition getField (k : string) (d : TaskDoc) : option bval :=
  let t := row d in
  if k =? "_id" then Some (BId (ID t))
  else if k =? "account" then Some (BId (Account t))
  else if k =? "application" then Some (BString (Application t))
  else if k =? "name" then Some (BString (Name t))
  else if k =? "queue" then Some (BString (Queue t))
  else if k =? "url" then Some (BString (URL t))
  else if k =? "method" then Some (BString (Method t))
  else if k =? "schedule" then Some (BString (Schedule t))
  else if k =? "at" then Some (BInt (At t))
  else if k =? "status" then Some (BString (Status t))
  else if k =? "active" then Some (BBool (Active t))
  else if k =? "deleted" then Some (BBool (Deleted t))
  else extra d !! k.

(** ** Queries *)

(** A constraint of a query document: equality, or [{"$ne": v}]. *)
Inductive cond := CEq (v : bval) | CNe (v : bval).

Definition holds (d : TaskDoc) (k : string) (c : cond) : Prop :=
  match c with
  | CEq v => getField k d = Some v
  | CNe v => getField k d <> Some v
  end.

#[global] Instance holds_dec d k c : Decision (holds d k c).
Proof. destruct c; simpl; apply _. Defined.

(** A [bson.M] used as a query: every constraint must hold. *)
Definition matches (q : gmap string cond) (d : TaskDoc) : bool :=
  bool_decide (map_Forall (holds d) q).

(** [Find(q).One]: the first matching document. *)
Definition findOne (q : gmap string cond) (l : list TaskDoc) : option TaskDoc :=
  find (matches q) l.

(** [Find(q).Apply(change, _)] with [ReturnNew]: the first matching document
    is updated in place and returned; [None] is [mgo.ErrNotFound]. *)
Fixpoint findAndModify (q : gmap string cond) (ch : Change) (l : list TaskDoc)
  : option (list TaskDoc * TaskDoc) :=
  match l with
  | [] => None
  | d :: rest =>
      if matches q d then
        let d' := applyChange ch d in Some (d' :: rest, d')
      else
        match findAndModify q ch rest with
        | Some (rest', d') => Some (d :: rest', d')
        | None => None
        end
  end.

Definition byId (taskID : ObjectId) : gmap string cond :=
  {[ "_id" := CEq (BId taskID) ]}.

Definition sameKey (t : Task) (d : TaskDoc) : bool :=
  (Account (row d) =? Account t) && (Application (row d) =? Application t)
  && (Name (row d) =? Name t).

(** [C("tasks").Insert]: refused with a duplicate-key error when the [_id] or
    the unique index on (account, application, name) is already taken. *)
Definition Insert (t : Task) (l : list TaskDoc) : list TaskDoc + error :=
  if existsb (fun d => (ID (row d) =? ID t) || sameKey t d) l then inr ErrDup
  else inl (l ++ [{| row := t; extra := ∅ |}])%list.

(** ** Attempts *)

(** Modelled from the spec: the [Attempt] struct, [NewAttempt] and
    [DeletePendingAttempts] live in a file that is not part of the sources at
    hand. Section 3 gives an attempt an opaque id, the foreign keys task,
    account, application and queue, the due time [at], the lease expiry
    [reservedUntil] (0 when not reserved), a status among pending, reserved,
    success, error and canceled, and the outcome fields. The task is kept
    both by name (the key DeleteTask selects attempts by) and by id (the
    argument of DeletePendingAttempts). *)
Record Attempt := {
  AttemptID : ObjectId;
  AttemptAccount : ObjectId;
  AttemptApplication : string;
  AttemptTask : string;
  AttemptTaskID : ObjectId;
  AttemptQueue : string;
  AttemptAt : Z;
  ReservedUntil : Z;
  AttemptStatus : string;
  StatusCode : Z;
  Response : string;
  StartedAt : Z;
  FinishedAt : Z;
  AttemptDeleted : bool
}.

Definition set_AttemptStatus (v : string) (a : Attempt) : Attempt :=
  {| AttemptID := AttemptID a; AttemptAccount := AttemptAccount a;
     AttemptApplication := AttemptApplication a; AttemptTask := AttemptTask a;
     AttemptTaskID := AttemptTaskID a; AttemptQueue := AttemptQueue a;
     AttemptAt := AttemptAt a; ReservedUntil := ReservedUntil a;
     AttemptStatus := v; StatusCode := StatusCode a; Response := Response a;
     StartedAt := StartedAt a; FinishedAt := FinishedAt a;
     AttemptDeleted := AttemptDeleted a |}.

Definition set_AttemptDeleted (v : bool) (a : Attempt) : Attempt :=
  {| AttemptID := AttemptID a; AttemptAccount := AttemptAccount a;
     AttemptApplication := AttemptApplication a; AttemptTask := AttemptTask a;
     AttemptTaskID := AttemptTaskID a; AttemptQueue := AttemptQueue a;
     AttemptAt := AttemptAt a; ReservedUntil := ReservedUntil a;
     AttemptStatus := AttemptStatus a; StatusCode := StatusCode a;
     Response := Response a; StartedAt := StartedAt a;
     FinishedAt := FinishedAt a; AttemptDeleted := v |}.

(** The non-terminal statuses of an attempt. *)
Definition nonTerminal (a : Attempt) : bool :=
  (AttemptStatus a =? "pending") || (AttemptStatus a =? "reserved").

(** The attempts a cancellation for the task [taskID] writes to. *)
Definition cancellable (taskID : ObjectId) (a : Attempt) : bool :=
  (AttemptTaskID a =? taskID) && nonTerminal a.

(** Modelled from the spec: [NewAttempt] is not in the sources at hand.
    Section 4.1: "create a fresh pending attempt at [at] and queue [queue]". *)
Definition NewAttempt (attemptID : ObjectId) (task : Task) (l : list Attempt)
  : list Attempt * Attempt * option error :=
  let attempt :=
    {| AttemptID := attemptID; AttemptAccount := Account task;
       AttemptApplication := Application task; AttemptTask := Name task;
       AttemptTaskID := ID task; AttemptQueue := Queue task;
       AttemptAt := At task; ReservedUntil := 0; AttemptStatus := "pending";
       StatusCode := 0; Response := ""; StartedAt := 0; FinishedAt := 0;
       AttemptDeleted := false |} in
  ((l ++ [attempt])%list, attempt, None).

(** Modelled from the spec: [DeletePendingAttempts] is not in the sources at
    hand. Section 4.3: cancellation "is a direct write status <- canceled
    gated on status in {pending, reserved}". Section 4.1 has a replace
    "(a) cancel any existing pending attempt" and "(b) create a fresh pending
    attempt", with exactly one non-terminal attempt afterwards; NewTask does
    (b) under the boolean this call returns, which is therefore the report
    that the write ran: true whenever there is no error. *)
Definition DeletePendingAttempts (taskID : ObjectId) (l : list Attempt)
  : list Attempt * bool * option error :=
  (map (fun a => if cancellable taskID a then set_AttemptStatus "canceled" a else a) l,
   true,
   None).

(** ** Retry policy *)

Definition clamp (x lo hi : Z) : Z := Z.max lo (Z.min x hi).

(** Modelled from the spec: the methods of [Retry] are not in the sources at
    hand. Section 4.2: nextDelay(attempts) = clamp(min * factor^attempts,
    min, max), in seconds. *)
Definition nextDelay (r : Retry) : Z :=
  clamp (Min r * Factor r ^ Attempts r) (Min r) (Max r).

(** Modelled from the spec: [Retry.NextAttempt] is not in the sources at
    hand. Section 4.2: it "returns now + nextDelay(attempts) iff attempts <
    maxAttempts, else signals retry exhausted". [now] and the result are in
    nanoseconds, as NextAttemptForTask passes [now.UnixNano()] and stores the
    result in the task's [at]; with the error goes the zero time. *)
Definition NextAttempt (r : Retry) (now : Z) : Z * option error :=
  if (Attempts r <? MaxAttempts r)%Z then (now + nextDelay r * 1000000000, None)
  else (0, Some ErrMaxAttemptsExceeded).

(** ** The database *)

Record DB := { tasks : list TaskDoc; attempts : list Attempt }.

(** [UpdateAll(q, {"$set": {"deleted": true}})] on the tasks. *)
Definition updateAllTasks (q : gmap string cond) (ch : Change) (l : list TaskDoc)
  : list TaskDoc :=
  map (fun d => if matches q d then applyChange ch d else d) l.

(** Modelled from the spec: [ListParams], [ListResult] and [getItems] are not
    in the sources at hand. GetTasks reads [lp.Filters]; the REST handler
    reads [HasMore], [Total], [Count], [Page] and [Pages] of the result.
    Section 6: ListPaginated(predicate, sort, page, perPage). The spec fixes
    neither the sort nor the numbering of the pages: the documents the
    predicate selects are taken in store order and the pages are counted from
    1 (a page below 1 is the first), [perPage] documents to a page. *)
Record ListParams := {
  Filters : gmap string string;
  page : Z;
  perPage : Z
}.

Record ListResult := {
  List : list Task;
  HasMore : bool;
  Total : Z;
  Count : Z;
  Page : Z;
  Pages : Z
}.

Definition getItems (q : gmap string cond) (lp : ListParams) (l : list TaskDoc)
  : ListResult * option error :=
  let found := map row (filter (fun d => matches q d = true) l) in
  let per := Z.to_nat (perPage lp) in
  let number := Z.max 1 (page lp) in
  let shown := take per (drop (Z.to_nat (number - 1) * per) found) in
  let pages :=
    if (perPage lp <=? 0)%Z then 0
    else (Z.of_nat (length found) + perPage lp - 1) / perPage lp in
  ({| List := shown;
      HasMore := (number <? pages)%Z;
      Total := Z.of_nat (length found);
      Count := Z.of_nat (length shown);
      Page := number;
      Pages := pages |}, None).

Section Operations.

(** [cron.Parse] followed by [Next(now).UnixNano()]: [None] when the
    expression does not parse. *)
Variable cronNext : string -> Z -> option Z.

Definition nextRun (schedule : string) (now : Z) : Z * option error :=
  match cronNext schedule now with
  | None => (0, Some ErrCron)
  | Some next => (next, None)
  end.

(** The first run of a new task (NewTask, "If [schedule] is defined we
    compute the next date of the first attempt, otherwise it is right
    now"). *)
Definition firstRun (schedule : string) (now : Z) : Z * option error :=
  if negb (schedule =? "") then nextRun schedule now else (now, None).

(** "Define default parameters for our retry strategy." *)
Definition retryDefaults (r : Retry) : Retry :=
  {| Attempts := Attempts r;
     MaxAttempts := if (MaxAttempts r =? 0)%Z then 10 else MaxAttempts r;
     Factor := if (Factor r =? 0)%Z then 2 else Factor r;
     Min := if (Min r =? 0)%Z then 10 else Min r;
     Max := if (Max r =? 0)%Z then 300 else Max r |}.

(** The [Task] NewTask builds, once the first run [at] is known. *)
Definition buildTask (taskID account : ObjectId) (application name queue URL : string)
    (a : HTTPAuth) (method : string) (headers : gmap string string)
    (payload schedule : string) (r : Retry) (active : bool) (at_ : Z) : Task :=
  let name := if name =? "" then Hex taskID else name in
  let queue := if queue =? "" then "default" else queue in
  let method := if method =? "" then "POST" else method in
  let payload := if negb (method =? "POST") then "" else payload in
  {| ID := taskID; Account := account; Application := application;
     Name := name; Queue := queue; URL := URL; auth := a; Method := method;
     Headers := headers; Payload := payload; Schedule := schedule; At := at_;
     Status := "pending"; Executed := 0; Active := (at_ >? 0)%Z && active;
     Errors := 0; LastError := 0; LastSuccess := 0; Executions := 0;
     retry := retryDefaults r; Deleted := false |}.

(** The update NewTask applies when the insert hits a duplicate key. *)
Definition upsertChange (task : Task) (active : bool) : Change :=
  {| set_ := [ ("url", BString (URL task));
               ("method", BString (Method task));
               ("headers", BHeaders (Headers task));
               ("payload", BString (Payload task));
               ("at", BInt (At task));
               ("active", BBool ((At task >? 0)%Z && active));
               ("schedule", BString (Schedule task));
               ("retry", BRetry (retry task));
               ("auth", BAuth (auth task));
               ("deleted", BBool false) ];
     inc_ := [] |}.

Definition keyQuery (account : ObjectId) (application name : string)
  : gmap string cond :=
  <["account" := CEq (BId account)]>
    (<["application" := CEq (BString application)]>
       (<["name" := CEq (BString name)]> ∅)).

(** NewTask creates a new Task. [taskID] and [attemptID] are the fresh ids
    the call draws, [now] the clock it reads. The result is the new
    database, the returned [*Task] ([None] for nil) and the returned error. *)
Definition NewTask (taskID attemptID : ObjectId) (now : Z)
    (account : ObjectId) (application name queue URL : string) (a : HTTPAuth)
    (method : string) (headers : gmap string string) (payload schedule : string)
    (r : Retry) (active : bool) (db : DB) : DB * option Task * option error :=
  match firstRun schedule now with
  | (_, Some err) => (db, None, Some err)
  | (at_, None) =>
      let task := buildTask taskID account application name queue URL a
                    method headers payload schedule r active at_ in
      match Insert task (tasks db) with
      | inr _ =>
          let query := keyQuery (Account task) (Application task) (Name task) in
          match findAndModify query (upsertChange task active) (tasks db) with
          | None => (db, Some task, Some ErrNotFound)
          | Some (tasks', d') =>
              let task := row d' in
              let '(atts, deleted, err) :=
                DeletePendingAttempts (ID task) (attempts db) in
              if deleted then
                let '(atts, _, err) := NewAttempt attemptID task atts in
                ({| tasks := tasks'; attempts := atts |}, Some task, err)
              else ({| tasks := tasks'; attempts := atts |}, Some task, err)
          end
      | inl tasks' =>
          let '(atts, _, err) := NewAttempt attemptID task (attempts db) in
          ({| tasks := tasks'; attempts := atts |}, Some task, err)
      end
  end.

(** GetTask returns a Task. *)
Definition GetTask (account : ObjectId) (application name : string) (db : DB)
  : option Task * option error :=
  let query := <["deleted" := CEq (BBool false)]> (keyQuery account application name) in
  match findOne query (tasks db) with
  | Some d => (Some (row d), None)
  | None => (None, None)
  end.

(** GetTaskByID returns a Task given its ID. *)
Definition GetTaskByID (taskID : ObjectId) (db : DB) : option Task * option error :=
  match findOne (byId taskID) (tasks db) with
  | Some d => (Some (row d), None)
  | None => (None, None)
  end.

Definition deletedChange : Change :=
  {| set_ := [("deleted", BBool true)]; inc_ := [] |}.

(** DeleteTask deletes a Task. *)
Definition DeleteTask (account : ObjectId) (application name : string) (db : DB)
  : DB * option error :=
  ({| tasks := updateAllTasks (keyQuery account application name) deletedChange (tasks db);
      attempts :=
        map (fun a =>
               if (AttemptAccount a =? account) && (AttemptApplication a =? application)
                  && (AttemptTask a =? name)
               then set_AttemptDeleted true a else a) (attempts db) |},
   None).

Definition appQuery (account : ObjectId) (application : string)
  : gmap string cond :=
  <["account" := CEq (BId account)]>
    (<["application" := CEq (BString application)]> ∅).

(** DeleteTasks deletes all Tasks from an Application. *)
Definition DeleteTasks (account : ObjectId) (application : string) (db : DB)
  : DB * option error :=
  ({| tasks := updateAllTasks (appQuery account application) deletedChange (tasks db);
      attempts :=
        map (fun a =>
               if (AttemptAccount a =? account) && (AttemptApplication a =? application)
               then set_AttemptDeleted true a else a) (attempts db) |},
   None).

(** The query GetTasks builds from the list parameters. *)
Definition GetTasksQuery (account : ObjectId) (application : string) (lp : ListParams)
  : gmap string cond :=
  let query : gmap string cond :=
    <["account" := CEq (BId account)]>
      (<["application" := CEq (BString application)]>
         (<["deleted" := CEq (BBool false)]> ∅)) in
  let query :=
    match Filters lp !! "schedule" with
    | Some value =>
        if value =? "true" then <["schedule" := CNe (BString "")]> query
        else if value =? "false" then <["schedule" := CEq (BString "")]> query
        else query
    | None => query
    end in
  match Filters lp !! "status" with
  | Some value =>
      match TaskStatuses !! value with
      | Some _ => <["status" := CEq (BString value)]> query
      | None => query
      end
  | None => query
  end.

(** GetTasks returns a list of Tasks. *)
Definition GetTasks (account : ObjectId) (application : string) (lp : ListParams)
    (db : DB) : ListResult * option error :=
  getItems (GetTasksQuery account application lp) lp (tasks db).

(** The local variables of NextAttemptForTask when it builds its update. *)
Record Outcome := {
  o_status : string;
  o_at : Z;
  o_err : option error;
  o_errors : Z;
  o_retryAttempts : Z
}.

(** NextAttemptForTask, from [var at int64] to the end of the
    [if status == "error" ... else if status == "success"] statement. *)
Definition outcome (task : Task) (status : string) (now : Z) : Outcome :=
  let '(at_, err) :=
    if Active task && negb (Schedule task =? "") then nextRun (Schedule task) now
    else (0, None) in
  if status =? "error" then
    let '(at_, err) := NextAttempt (retry task) now in
    {| o_status := match err with None => "retrying" | Some _ => status end;
       o_at := at_; o_err := err; o_errors := 1; o_retryAttempts := 1 |}
  else if status =? "success" then
    {| o_status := status; o_at := at_; o_err := err; o_errors := 0;
       o_retryAttempts := wrap64 (- Attempts (retry task)) |}
  else
    {| o_status := status; o_at := at_; o_err := err; o_errors := 0;
       o_retryAttempts := 1 |}.

(** [now.Unix()], for a clock in nanoseconds. *)
Definition unixSeconds (now : Z) : Z := now / 1000000000.

(** The [mgo.Change] of NextAttemptForTask. *)
Definition finalizeChange (o : Outcome) (now : Z) : Change :=
  {| set_ := [ ("status", BString (o_status o));
               ("updated", BInt (unixSeconds now));
               ("executed", BInt (unixSeconds now));
               ("last_" ++ o_status o, BInt (unixSeconds now));
               ("at", BInt (o_at o));
               ("active", BBool (o_at o >? 0)%Z) ];
     inc_ := [ ("executions", 1);
               ("errors", o_errors o);
               ("retry.attempts", o_retryAttempts o) ] |}.

(** NextAttemptForTask enqueue the next Attempt if any and returns it.
    [attemptID] is the fresh id NewAttempt draws, [now] the clock. *)
Definition NextAttemptForTask (attemptID : ObjectId) (now : Z)
    (taskID : ObjectId) (status : string) (db : DB)
  : DB * option Attempt * option error :=
  match findOne (byId taskID) (tasks db) with
  | None => (db, None, Some ErrNotFound)
  | Some d =>
      let task := row d in
      let change := finalizeChange (outcome task status now) now in
      let '(tasks', task, err) :=
        match findAndModify (byId taskID) change (tasks db) with
        | Some (tasks', d') => (tasks', row d', None)
        | None => (tasks db, task, Some ErrNotFound)
        end in
      if Active task && negb (At task =? 0)%Z && negb (Deleted task) then
        let '(atts, attempt, err) := NewAttempt attemptID task (attempts db) in
        ({| tasks := tasks'; attempts := atts |}, Some attempt, err)
      else ({| tasks := tasks'; attempts := attempts db |}, None, err)
  end.

End Operations.

End models.

Module restapi.

Import models.

(** Task is used for the Rest API. [Active] is a [*bool]: [None] is nil, the
    value a JSON body without the field decodes to. *)
Record Task := {
  ID : string;
  Created : string;
  Account : string;
  Application : string;
  Name : string;
  Queue : string;
  URL : string;
  HTTPAuth : models.HTTPAuth;
  Method : string;
  Headers : gmap string string;
  Payload : string;
  Schedule : string;
  At : string;
  Status : string;
  Executed : string;
  Active : option bool;
  Errors : Z;
  LastError : string;
  LastSuccess : string;
  Executions : Z;
  ErrorRate : Z;
  Retry : models.Retry
}.

(** What a handler does: [rest.Error] with status 500, [WriteJson], or the
    panic of NewTaskFromModel on a nil task. *)
Inductive response :=
  | InternalServerError (e : error)
  | Json (t : Task)
  | Panic. (* nil pointer dereference *)

Section Handlers.

Variable cronNext : string -> Z -> option Z.

(** The helpers of the package the sources at hand do not hold: the
    creation time of an object id and the rendering of a Unix time, both as
    RFC 3339 text. *)
Variable idTime : ObjectId -> string.
Variable UnixToRFC3339 : Z -> string.

(** NewTaskFromModel returns a Task object for use with the Rest API from a
    Task model. *)
Definition NewTaskFromModel (task : models.Task) : Task :=
  {| ID := Hex (models.ID task);
     Created := idTime (models.ID task);
     Application := models.Application task;
     Account := Hex (models.Account task);
     Queue := models.Queue task;
     Name := models.Name task;
     URL := models.URL task;
     Method := models.Method task;
     HTTPAuth := models.auth task;
     Headers := models.Headers task;
     Payload := models.Payload task;
     Schedule := models.Schedule task;
     At := UnixToRFC3339 (Z.quot (models.At task) 1000000000);
     Status := models.Status task;
     Executed := UnixToRFC3339 (models.Executed task);
     Active := Some (models.Active task);
     Executions := models.Executions task;
     Errors := models.Errors task;
     LastSuccess := UnixToRFC3339 (models.LastSuccess task);
     LastError := UnixToRFC3339 (models.LastError task);
     ErrorRate := models.ErrorRate task;
     Retry := models.retry task |}.

(** The [active] argument PutTask hands to NewTask. *)
Definition requestedActive (rt : Task) : bool :=
  match Active rt with
  | None => true
  | Some b => b
  end.

(** PutTask, from a request whose path parameters ([taskParams]) and JSON
    body ([DecodeJsonPayload]) have been read: [params] and [body] are their
    results. *)
Definition PutTask (taskID attemptID : ObjectId) (now : Z)
    (params : (ObjectId * string * string) + error) (body : Task + error)
    (db : DB) : DB * response :=
  match params with
  | inr err => (db, InternalServerError err)
  | inl (accountID, applicationName, taskName) =>
      match body with
      | inr err => (db, InternalServerError err)
      | inl rt =>
          let active := requestedActive rt in
          match NewTask cronNext taskID attemptID now accountID applicationName
                  taskName (Queue rt) (URL rt) (HTTPAuth rt) (Method rt)
                  (Headers rt) (Payload rt) (Schedule rt) (Retry rt) active db with
          | (db', _, Some err) => (db', InternalServerError err)
          | (db', Some task, None) => (db', Json (NewTaskFromModel task))
          | (db', None, None) => (db', Panic)
          end
      end
  end.

(** What the other handlers of the package do: [rest.Error] with status 500,
    [rest.NotFound], [WriteJson] of a task, or a return with nothing
    written. *)
Inductive reply :=
  | ReplyError (e : error)
  | ReplyNotFound
  | ReplyJson (t : Task)
  | ReplyEmpty.

(** GetTask, from a request whose path parameters have been read. *)
Definition GetTask (params : (ObjectId * string * string) + error) (db : DB)
  : reply :=
  match params with
  | inr err => ReplyError err
  | inl (accountID, applicationName, taskName) =>
      match models.GetTask accountID applicationName taskName db with
      | (_, Some err) => ReplyError err
      | (None, None) => ReplyNotFound
      | (Some task, None) => ReplyJson (NewTaskFromModel task)
      end
  end.

(** DeleteTask, from a request whose path parameters have been read. *)
Definition DeleteTask (params : (ObjectId * string * string) + error) (db : DB)
  : DB * reply :=
  match params with
  | inr err => (db, ReplyError err)
  | inl (accountID, applicationName, taskName) =>
      match models.DeleteTask accountID applicationName taskName db with
      | (db', Some err) => (db', ReplyError err)
      | (db', None) => (db', ReplyEmpty)
      end
  end.

(** DeleteTasks, from a request whose path parameters have been read; the
    task name is not looked at. *)
Definition DeleteTasks (params : (ObjectId * string * string) + error) (db : DB)
  : DB * reply :=
  match params with
  | inr err => (db, ReplyError err)
  | inl (accountID, applicationName, _) =>
      match models.DeleteTasks accountID applicationName db with
      | (db', Some err) => (db', ReplyError err)
      | (db', None) => (db', ReplyEmpty)
      end
  end.

End Handlers.

End restapi.

(** * Fixtures: a cron oracle and stores to run the operations on *)

Module fixtures.

Import models.

(** A cron oracle that knows one expression, "* * * * *", and fires at the
    start of the next minute; every other expression is rejected. *)
Definition everyMinute (schedule : string) (now : Z) : option Z :=
  if schedule =? "* * * * *" then Some ((now / 60000000000 + 1) * 60000000000)
  else None.

Definition emptyDB : DB := {| tasks := []; attempts := [] |}.

Definition noAuth : HTTPAuth := {| Username := ""; Password := "" |}.

Definition noRetry : Retry :=
  {| Attempts := 0; MaxAttempts := 0; Factor := 0; Min := 0; Max := 0 |}.

(** 2026-01-01T00:00:30Z, in nanoseconds. *)
Definition t0 : Z := 1767225630000000000.

(** One one-shot task "n" of account "acc", application "app". *)
Definition createOnce (taskID attemptID : ObjectId) (now : Z) (url : string)
    (db : DB) : DB * option Task * option error :=
  NewTask everyMinute taskID attemptID now "acc" "app" "n" "" url noAuth
    "" ∅ "x" "" noRetry true db.

(** One task "cron" that runs every minute. *)
Definition createCron (taskID attemptID : ObjectId) (now : Z) (r : Retry)
    (db : DB) : DB * option Task * option error :=
  NewTask everyMinute taskID attemptID now "acc" "app" "cron" "" "http://h/ok"
    noAuth "" ∅ "x" "* * * * *" r true db.

Definition dbOf {A B : Type} (r : DB * A * B) : DB := fst (fst r).

(** The store after the task "n" was created at [t0] with id "t1", and the
    document it holds. *)
Definition created : DB := dbOf (createOnce "t1" "a1" t0 "http://h/ok" emptyDB).

Definition createdDoc : TaskDoc :=
  {| row := buildTask "t1" "acc" "app" "n" "" "http://h/ok" noAuth "" ∅ "x" ""
              noRetry true t0;
     extra := ∅ |}.

(** The task "n" after DeleteTask. *)
Definition removed : DB := fst (DeleteTask "acc" "app" "n" created).

(** A task that runs every minute and may fail once: created at [t0], it
    failed five seconds later and was rescheduled as a retry. *)
Definition oneRetry : Retry :=
  {| Attempts := 0; MaxAttempts := 1; Factor := 1; Min := 1; Max := 1 |}.

Definition retried : DB :=
  dbOf (NextAttemptForTask everyMinute "a2" (t0 + 5000000000) "t1" "error"
          (dbOf (createCron "t1" "a1" t0 oneRetry emptyDB))).

(** List parameters for the first page of ten: with no filter, and with a
    status filter that names no task status. *)
Definition noFilter : ListParams := {| Filters := ∅; page := 1; perPage := 10 |}.

Definition bogusStatus : ListParams :=
  {| Filters := {[ "status" := "bogus" ]}; page := 1; perPage := 10 |}.

(** The task "n" created in the queue "q1". *)
Definition queued : DB :=
  dbOf (NewTask everyMinute "t1" "a1" t0 "acc" "app" "n" "q1" "http://h/ok"
          noAuth "" ∅ "x" "" noRetry true emptyDB).

(** The body of a PUT request that names a URL and nothing else: no active
    field. *)
Definition bodyWithoutActive : restapi.Task :=
  {| restapi.ID := ""; restapi.Created := ""; restapi.Account := "";
     restapi.Application := ""; restapi.Name := ""; restapi.Queue := "";
     restapi.URL := "http://h/ok"; restapi.HTTPAuth := noAuth;
     restapi.Method := ""; restapi.Headers := ∅; restapi.Payload := "";
     restapi.Schedule := ""; restapi.At := ""; restapi.Status := "";
     restapi.Executed := ""; restapi.Active := None; restapi.Errors := 0;
     restapi.LastError := ""; restapi.LastSuccess := "";
     restapi.Executions := 0; restapi.ErrorRate := 0;
     restapi.Retry := noRetry |}.

(** A rendering of times that tells nothing. *)
Definition noTime {A : Type} (_ : A) : string := "".

(** A task with four executions, three of them errors. *)
Definition threeOfFour : Task := set_Errors 3 (set_Executions 4 (row createdDoc)).

(** The task "n" declared inactive, on an empty store. *)
Definition inactiveDoc : TaskDoc :=
  {| row := buildTask "t1" "acc" "app" "n" "" "http://h/ok" noAuth "" ∅ "x" ""
              noRetry false t0;
     extra := ∅ |}.

Definition inactive : DB :=
  dbOf (NewTask everyMinute "t1" "a1" t0 "acc" "app" "n" "" "http://h/ok" noAuth
          "" ∅ "x" "" noRetry false emptyDB).

(** The task a PUT of [bodyWithoutActive] under the name "n" creates, and
    the answer to that PUT on an empty store. *)
Definition putTask : Task :=
  buildTask "t1" "acc" "app" "n" "" "http://h/ok" noAuth "" ∅ "" "" noRetry
    true t0.

Definition putResult : DB * restapi.response :=
  restapi.PutTask everyMinute (@noTime ObjectId) (@noTime Z) "t1" "a1" t0
    (inl ("acc", "app", "n")) (inl bodyWithoutActive) emptyDB.

End fixtures.

(** * Vocabulary of the properties *)

Module props.

Import models.

(** [l !! i] is the first document of [l] the query selects. *)
Definition firstMatch (q : gmap string cond) (l : list TaskDoc) (i : nat)
    (d : TaskDoc) : Prop :=
  l !! i = Some d /\ matches q d = true /\
  forall j d', (j < i)%nat -> l !! j = Some d' -> matches q d' = false.

(** The row a re-creation leaves: url, method, headers, payload, at, active,
    schedule, retry and auth come from the new declaration [task], [deleted]
    is cleared, everything else is the old row's. *)
Definition replaced (old task : Task) (active : bool) : Task :=
  {| ID := ID old; Account := Account old; Application := Application old;
     Name := Name old; Queue := Queue old; URL := URL task; auth := auth task;
     Method := Method task; Headers := Headers task; Payload := Payload task;
     Schedule := Schedule task; At := At task; Status := Status old;
     Executed := Executed old; Active := (At task >? 0)%Z && active;
     Errors := Errors old; LastError := LastError old;
     LastSuccess := LastSuccess old; Executions := Executions old;
     retry := retry task; Deleted := false |}.

(** The row the update of NextAttemptForTask leaves. *)
Definition finalized (old : Task) (o : Outcome) (now : Z) : Task :=
  {| ID := ID old; Account := Account old; Application := Application old;
     Name := Name old; Queue := Queue old; URL := URL old; auth := auth old;
     Method := Method old; Headers := Headers old; Payload := Payload old;
     Schedule := Schedule old; At := o_at o; Status := o_status o;
     Executed := unixSeconds now; Active := (o_at o >? 0)%Z;
     Errors := Errors old + o_errors o;
     LastError :=
       if o_status o =? "error" then unixSeconds now else LastError old;
     LastSuccess :=
       if o_status o =? "success" then unixSeconds now else LastSuccess old;
     Executions := Executions old + 1;
     retry := set_Attempts (Attempts (retry old) + o_retryAttempts o) (retry old);
     Deleted := Deleted old |}.


(** What DeletePendingAttempts writes. *)
Definition cancelAll (taskID : ObjectId) (l : list Attempt) : list Attempt :=
  map (fun a => if cancellable taskID a then set_AttemptStatus "canceled" a else a) l.

(** The pending attempt NewAttempt creates for [task]. *)
Definition pendingFor (attemptID : ObjectId) (task : Task) : Attempt :=
  {| AttemptID := attemptID; AttemptAccount := Account task;
     AttemptApplication := Application task; AttemptTask := Name task;
     AttemptTaskID := ID task; AttemptQueue := Queue task;
     AttemptAt := At task; ReservedUntil := 0; AttemptStatus := "pending";
     StatusCode := 0; Response := ""; StartedAt := 0; FinishedAt := 0;
     AttemptDeleted := false |}.

(** The invariant of the data model: active implies at > 0. *)
Definition scheduled (t : Task) : Prop := Active t = true -> 0 < At t.

(** The condition under which NextAttemptForTask enqueues an attempt. *)
Definition due (t : Task) : Prop :=
  Active t = true /\ At t <> 0 /\ Deleted t = false.


(** Whether a value is one of the task statuses. *)
Definition knownStatus (v : string) : bool :=
  match TaskStatuses !! v with
  | Some _ => true
  | None => false
  end.

(** The tasks GetTasks lists: those of the application that are not deleted
    and pass the two filters, a filter with a value GetTasks does not know
    being no filter at all. *)
Definition selected (account : ObjectId) (application : string) (lp : ListParams)
    (t : Task) : Prop :=
  Account t = account /\ Application t = application /\ Deleted t = false /\
  match Filters lp !! "schedule" with
  | Some v =>
      if v =? "true" then Schedule t <> ""
      else if v =? "false" then Schedule t = ""
      else True
  | None => True
  end /\
  match Filters lp !! "status" with
  | Some v => if knownStatus v then Status t = v else True
  | None => True
  end.

(** The row, and a field outside the [Task] struct, of the first document
    with a given id. *)
Definition taskRow (taskID : ObjectId) (db : DB) : option Task :=
  row <$> findOne (byId taskID) (tasks db).

Definition taskExtra (taskID : ObjectId) (k : string) (db : DB) : option bval :=
  findOne (byId taskID) (tasks db) ≫= fun d => extra d !! k.

(** The counters of a task: no more errors than executions. *)
Definition countersOK (t : Task) : Prop := 0 <= Errors t <= Executions t.

(** Payload is only valid for POST requests. *)
Definition payloadOK (t : Task) : Prop := Method t = "POST" \/ Payload t = "".

(** A property of every stored task. *)
Definition allRows (P : Task -> Prop) (db : DB) : Prop :=
  forall d, d ∈ tasks db -> P (row d).

(** The key of the unique index EnsureTaskIndex declares. *)
Definition keyOf (d : TaskDoc) : ObjectId * string * string :=
  (Account (row d), Application (row d), Name (row d)).

Definition idOf (d : TaskDoc) : ObjectId := ID (row d).

(** No two stored tasks share an id, and no two share a key. *)
Definition uniqueStore (db : DB) : Prop :=
  NoDup (idOf <$> tasks db) /\ NoDup (keyOf <$> tasks db).

(** A document, soft-deleted. *)
Definition markDeleted (d : TaskDoc) : TaskDoc :=
  withRow (set_Deleted true (row d)) d.

(** Whether an attempt belongs to the task DeleteTask is given. *)
Definition attemptOf (account : ObjectId) (application name : string)
    (a : Attempt) : bool :=
  (AttemptAccount a =? account) && (AttemptApplication a =? application)
  && (AttemptTask a =? name).

End props.

(** * Properties *)

Import models props.

(** ** Queries *)

Lemma matches_byId taskID d :
  matches (byId taskID) d = true <-> ID (row d) = taskID.
Proof.
  unfold matches, byId. rewrite bool_decide_eq_true, map_Forall_singleton.
  simpl. unfold getField. simpl. split; congruence.
Qed.

Lemma matches_keyQuery account application name d :
  matches (keyQuery account application name) d = true <->
  Account (row d) = account /\ Application (row d) = application /\
  Name (row d) = name.
Proof.
  unfold matches, keyQuery. rewrite bool_decide_eq_true.
  rewrite !map_Forall_insert by done.
  unfold holds, getField; simpl.
  split.
  - intros (? & ? & ? & _). repeat split; congruence.
  - intros (? & ? & ?). repeat split; try congruence. apply map_Forall_empty.
Qed.

Lemma matches_keyQuery_live account application name d :
  matches (<["deleted" := CEq (BBool false)]> (keyQuery account application name)) d = true <->
  Deleted (row d) = false /\ Account (row d) = account /\
  Application (row d) = application /\ Name (row d) = name.
Proof.
  unfold matches. rewrite bool_decide_eq_true.
  rewrite map_Forall_insert by done.
  rewrite <- (bool_decide_eq_true (map_Forall _ _)).
  fold (matches (keyQuery account application name) d).
  rewrite matches_keyQuery. unfold holds, getField; simpl.
  split; intros [? ?]; split; auto; congruence.
Qed.

Lemma sameKey_spec t d :
  sameKey t d = true <->
  Account (row d) = Account t /\ Application (row d) = Application t /\
  Name (row d) = Name t.
Proof.
  unfold sameKey. rewrite !andb_true_iff, !String.eqb_eq. tauto.
Qed.

Lemma sameKey_matches t d :
  sameKey t d = matches (keyQuery (Account t) (Application t) (Name t)) d.
Proof.
  apply eq_true_iff_eq. rewrite sameKey_spec, matches_keyQuery. tauto.
Qed.

(** ** Find and modify *)

Lemma findOne_firstMatch q l d :
  findOne q l = Some d -> exists i, firstMatch q l i d.
Proof.
  unfold findOne. induction l as [|x l IH]; simpl; [discriminate|].
  destruct (matches q x) eqn:Hx.
  - intros [= <-]. exists 0%nat. repeat split; auto. intros j d' Hj. lia.
  - intros H. destruct (IH H) as (i & Hi & Hm & Hfirst).
    exists (S i). repeat split; auto.
    intros [|j] d' Hj Hl; simpl in Hl.
    + congruence.
    + apply (Hfirst j); auto. lia.
Qed.

Lemma firstMatch_findOne q l i d : firstMatch q l i d -> findOne q l = Some d.
Proof.
  unfold findOne. revert i. induction l as [|x l IH]; intros i (Hi & Hm & Hfirst).
  - destruct i; discriminate.
  - simpl. destruct i as [|i]; simpl in Hi.
    + injection Hi as ->. now rewrite Hm.
    + rewrite (Hfirst 0%nat x) by (simpl; auto; lia).
      apply (IH i). repeat split; auto.
      intros j d' Hj Hl. apply (Hfirst (S j)); auto. lia.
Qed.

Lemma findOne_None q l :
  findOne q l = None <-> forall d, d ∈ l -> matches q d = false.
Proof.
  unfold findOne. induction l as [|x l IH]; simpl.
  - split; auto. intros _ d Hd. inversion Hd.
  - destruct (matches q x) eqn:Hx.
    + split; [discriminate|]. intros H. specialize (H x). rewrite Hx in H.
      discriminate H. left.
    + rewrite IH. split.
      * intros H d Hd. inversion Hd; subst; auto.
      * intros H d Hd. apply H. now right.
Qed.

Lemma findAndModify_firstMatch q ch l i d :
  firstMatch q l i d ->
  findAndModify q ch l = Some (<[i := applyChange ch d]> l, applyChange ch d).
Proof.
  revert i. induction l as [|x l IH]; intros i (Hi & Hm & Hfirst).
  - destruct i; discriminate.
  - simpl. destruct i as [|i]; simpl in Hi.
    + injection Hi as ->. now rewrite Hm.
    + rewrite (Hfirst 0%nat x) by (simpl; auto; lia).
      rewrite (IH i); [reflexivity|].
      repeat split; auto.
      intros j d' Hj Hl. apply (Hfirst (S j)); auto. lia.
Qed.

Lemma findAndModify_None q ch l :
  findOne q l = None -> findAndModify q ch l = None.
Proof.
  unfold findOne. induction l as [|x l IH]; simpl; auto.
  destruct (matches q x); [discriminate|]. intros H. now rewrite IH.
Qed.

(** An update that keeps the selected document selected leaves it the first
    match. *)
Lemma firstMatch_insert q l i d d' :
  firstMatch q l i d -> matches q d' = true ->
  firstMatch q (<[i := d']> l) i d'.
Proof.
  intros (Hi & Hm & Hfirst) Hd'. repeat split; auto.
  - apply list_lookup_insert_eq. now apply lookup_lt_Some in Hi.
  - intros j x Hj Hl. rewrite list_lookup_insert_ne in Hl by lia.
    now apply (Hfirst j).
Qed.

(** ** What an update can touch *)

Lemma setField_key k v d :
  ID (row (setField k v d)) = ID (row d) /\
  Account (row (setField k v d)) = Account (row d) /\
  Application (row (setField k v d)) = Application (row d) /\
  Name (row (setField k v d)) = Name (row d) /\
  Queue (row (setField k v d)) = Queue (row d).
Proof.
  unfold setField.
  repeat match goal with
         | |- context [if ?b then _ else _] => destruct b
         end;
    try (destruct v; simpl; auto); simpl; auto.
Qed.

Lemma incField_key k n d :
  ID (row (incField k n d)) = ID (row d) /\
  Account (row (incField k n d)) = Account (row d) /\
  Application (row (incField k n d)) = Application (row d) /\
  Name (row (incField k n d)) = Name (row d) /\
  Queue (row (incField k n d)) = Queue (row d).
Proof.
  unfold incField.
  repeat match goal with
         | |- context [if ?b then _ else _] => destruct b
         end; simpl; auto.
Qed.

Lemma applyChange_key ch d :
  ID (row (applyChange ch d)) = ID (row d) /\
  Account (row (applyChange ch d)) = Account (row d) /\
  Application (row (applyChange ch d)) = Application (row d) /\
  Name (row (applyChange ch d)) = Name (row d) /\
  Queue (row (applyChange ch d)) = Queue (row d).
Proof.
  unfold applyChange. destruct ch as [s i]. simpl.
  assert (Hs : forall s d,
    let d' := fold_left (fun d kv => setField (fst kv) (snd kv) d) s d in
    ID (row d') = ID (row d) /\ Account (row d') = Account (row d) /\
    Application (row d') = Application (row d) /\ Name (row d') = Name (row d) /\
    Queue (row d') = Queue (row d)).
  { clear. induction s as [|[k v] s IH]; intros d; simpl; auto.
    specialize (IH (setField k v d)). simpl in IH.
    pose proof (setField_key k v d). intuition congruence. }
  assert (Hi : forall i d,
    let d' := fold_left (fun d kn => incField (fst kn) (snd kn) d) i d in
    ID (row d') = ID (row d) /\ Account (row d') = Account (row d) /\
    Application (row d') = Application (row d) /\ Name (row d') = Name (row d) /\
    Queue (row d') = Queue (row d)).
  { clear. induction i as [|[k n] i IH]; intros d; simpl; auto.
    specialize (IH (incField k n d)). simpl in IH.
    pose proof (incField_key k n d). intuition congruence. }
  specialize (Hs s d). specialize (Hi i (fold_left (fun d kv => setField (fst kv) (snd kv) d) s d)).
  simpl in *. intuition congruence.
Qed.

(** ** The rows the two updates write *)

Lemma upsert_doc task active d :
  applyChange (upsertChange task active) d =
  {| row := replaced (row d) task active; extra := extra d |}.
Proof. reflexivity. Qed.

Lemma last_key_doc s n d :
  setField ("last_" ++ s) (BInt n) d =
  if s =? "error" then withRow (set_LastError n (row d)) d
  else if s =? "success" then withRow (set_LastSuccess n (row d)) d
  else {| row := row d; extra := <["last_" ++ s := BInt n]> (extra d) |}.
Proof. reflexivity. Qed.

Lemma finalize_row o now d :
  row (applyChange (finalizeChange o now) d) = finalized (row d) o now.
Proof.
  unfold applyChange, finalizeChange; cbn [set_ inc_ fold_left fst snd].
  set (d1 := setField "executed" _ _).
  rewrite last_key_doc.
  subst d1. unfold finalized.
  destruct (String.eqb_spec (o_status o) "error") as [He|He].
  - rewrite He. reflexivity.
  - destruct (o_status o =? "success"); reflexivity.
Qed.

(** ** Attempts *)





(** ** Insertion *)

Lemma Insert_dup t l :
  existsb (sameKey t) l = true -> Insert t l = inr ErrDup.
Proof.
  intros H. unfold Insert.
  replace (existsb _ l) with true; [reflexivity|]. symmetry.
  apply existsb_exists. apply existsb_exists in H as (d & Hd & Hk).
  exists d. split; auto. rewrite Hk. apply orb_true_r.
Qed.

Lemma Insert_inl t l l' :
  Insert t l = inl l' ->
  l' = (l ++ [{| row := t; extra := ∅ |}])%list /\
  forall d, d ∈ l -> ID (row d) <> ID t /\ sameKey t d = false.
Proof.
  unfold Insert.
  destruct (existsb (fun d => (ID (row d) =? ID t) || sameKey t d) l) eqn:Hdup;
    [discriminate|].
  intros [= <-]. split; [reflexivity|]. intros d Hd.
  assert (Hd' : (ID (row d) =? ID t) || sameKey t d = false).
  { destruct ((ID (row d) =? ID t) || sameKey t d) eqn:Hb; [|reflexivity].
    rewrite <- Hdup. symmetry. apply existsb_exists. exists d.
    split; [apply list_elem_of_In; exact Hd | exact Hb]. }
  apply orb_false_iff in Hd' as [Hid Hkey]. split; [|exact Hkey].
  now apply String.eqb_neq in Hid.
Qed.

Lemma firstMatch_existsb t l i d :
  firstMatch (keyQuery (Account t) (Application t) (Name t)) l i d ->
  existsb (sameKey t) l = true.
Proof.
  intros (Hl & Hm & _). apply existsb_exists. exists d. split.
  - apply list_elem_of_In, list_elem_of_lookup. eauto.
  - now rewrite sameKey_matches.
Qed.

Lemma existsb_sameKey_findOne t l :
  existsb (sameKey t) l = true ->
  exists d, findOne (keyQuery (Account t) (Application t) (Name t)) l = Some d.
Proof.
  intros H.
  destruct (findOne _ l) as [d|] eqn:Hf; [eauto|].
  apply existsb_exists in H as (d & Hd & Hk).
  rewrite findOne_None in Hf. rewrite sameKey_matches in Hk.
  rewrite (Hf d) in Hk; [discriminate|]. now apply list_elem_of_In.
Qed.

(** ** Lookups *)

(** GetTask never returns a deleted task. *)
Lemma GetTask_live account application name db t :
  fst (GetTask account application name db) = Some t ->
  Deleted t = false /\ Account t = account /\ Application t = application /\
  Name t = name.
Proof.
  unfold GetTask.
  destruct (findOne _ (tasks db)) as [d|] eqn:Hfind; [|discriminate].
  cbn. intros [= <-].
  destruct (findOne_firstMatch _ _ _ Hfind) as (i & _ & Hm & _).
  now apply matches_keyQuery_live in Hm.
Qed.

(** GetTaskByID returns the first row with the id, deleted or not. *)
Lemma GetTaskByID_any taskID db d :
  findOne (byId taskID) (tasks db) = Some d ->
  GetTaskByID taskID db = (Some (row d), None).
Proof. unfold GetTaskByID. now intros ->. Qed.

(** ** Listing *)

Lemma TaskStatuses_known v :
  knownStatus v = true <->
  v = "pending" \/ v = "retrying" \/ v = "canceled" \/ v = "success" \/ v = "error".
Proof.
  unfold knownStatus, TaskStatuses. rewrite !lookup_insert, lookup_empty.
  repeat case_decide; subst; split; auto; try discriminate.
  intros Hv. repeat (destruct Hv as [Hv|Hv]; [congruence|]). congruence.
Qed.

Lemma matches_GetTasksQuery account application lp d :
  matches (GetTasksQuery account application lp) d = true <->
  selected account application lp (row d).
Proof.
  unfold matches, GetTasksQuery, selected, knownStatus.
  rewrite bool_decide_eq_true.
  destruct (Filters lp !! "schedule") as [v|];
    [destruct (v =? "true"); [|destruct (v =? "false")]|];
    (destruct (Filters lp !! "status") as [w|]; [destruct (TaskStatuses !! w)|]);
    rewrite !map_Forall_insert by done;
    unfold holds, getField; cbn;
    pose proof (map_Forall_empty (M := gmap string) (holds d));
    intuition congruence.
Qed.

(** C9 (as amended). The query GetTasks builds selects the tasks of the
    application that are not deleted and pass the filters. A status filter
    selects the tasks with that status when its value is one of pending,
    retrying, canceled, success and error; with any other value it is
    ignored: the query is the one built without the status filter, and
    GetTasks has no error of its own, it returns what getItems returns for
    the query. The schedule filter "true" selects the tasks with a non-empty
    schedule, "false" those with an empty one. *)
Theorem GetTasks_filters account application lp db :
  (forall v, knownStatus v = true <->
     v = "pending" \/ v = "retrying" \/ v = "canceled" \/ v = "success" \/
     v = "error") /\
  (forall d, matches (GetTasksQuery account application lp) d = true <->
     selected account application lp (row d)) /\
  (forall v, Filters lp !! "status" = Some v -> knownStatus v = false ->
     GetTasksQuery account application lp =
     GetTasksQuery account application
       {| Filters := delete "status" (Filters lp);
          page := page lp; perPage := perPage lp |}) /\
  GetTasks account application lp db =
  getItems (GetTasksQuery account application lp) lp (tasks db).
Proof.
  split; [exact TaskStatuses_known|].
  split; [intros d; apply matches_GetTasksQuery|].
  split; [|reflexivity].
  intros v Hv Hunknown. unfold GetTasksQuery, knownStatus in *. cbn [Filters].
  rewrite Hv, lookup_delete_eq, lookup_delete_ne by discriminate.
  now destruct (TaskStatuses !! v).
Qed.

Section Claims.

Variable cronNext : string -> Z -> option Z.

(** NewTask on a key that is taken: the first row with the key is updated
    in place, the attempts of the task are cancelled, and then a pending
    attempt is appended. *)
Lemma NewTask_on_duplicate
    taskID attemptID now account application name queue URL a method headers
    payload schedule r active db at_ :
  firstRun cronNext schedule now = (at_, None) ->
  let task := buildTask taskID account application name queue URL a method
                headers payload schedule r active at_ in
  existsb (sameKey task) (tasks db) = true ->
  exists i d,
    firstMatch (keyQuery account application (Name task)) (tasks db) i d /\
    let new := replaced (row d) task active in
    NewTask cronNext taskID attemptID now account application name queue URL a
      method headers payload schedule r active db =
    ({| tasks := <[i := {| row := new; extra := extra d |}]> (tasks db);
        attempts :=
          (cancelAll (ID (row d)) (attempts db) ++ [pendingFor attemptID new])%list |},
     Some new, None).
Proof.
  intros Hrun task Hdup.
  destruct (existsb_sameKey_findOne _ _ Hdup) as (d & Hfind).
  destruct (findOne_firstMatch _ _ _ Hfind) as (i & Hi).
  exists i, d. split; [exact Hi|].
  unfold NewTask. rewrite Hrun. fold task. rewrite (Insert_dup _ _ Hdup).
  rewrite (findAndModify_firstMatch _ (upsertChange task active) _ _ _ Hi).
  rewrite upsert_doc. reflexivity.
Qed.


(** NextAttemptForTask on a task that exists: the first row with the id is
    rewritten to [finalized], and an attempt is appended when that row is
    active, scheduled and not deleted. *)
Lemma NextAttemptForTask_found attemptID now taskID status db d :
  findOne (byId taskID) (tasks db) = Some d ->
  exists i d',
    firstMatch (byId taskID) (tasks db) i d /\
    d' = applyChange (finalizeChange (outcome cronNext (row d) status now) now) d /\
    row d' = finalized (row d) (outcome cronNext (row d) status now) now /\
    findOne (byId taskID) (<[i := d']> (tasks db)) = Some d' /\
    NextAttemptForTask cronNext attemptID now taskID status db =
    if Active (row d') && negb (At (row d') =? 0)%Z && negb (Deleted (row d'))
    then ({| tasks := <[i := d']> (tasks db);
             attempts := (attempts db ++ [pendingFor attemptID (row d')])%list |},
          Some (pendingFor attemptID (row d')), None)
    else ({| tasks := <[i := d']> (tasks db); attempts := attempts db |},
          None, None).
Proof.
  intros Hfind. destruct (findOne_firstMatch _ _ _ Hfind) as (i & Hi).
  set (ch := finalizeChange (outcome cronNext (row d) status now) now).
  exists i, (applyChange ch d). split; [exact Hi|]. split; [reflexivity|].
  split; [apply finalize_row|]. split.
  - apply (firstMatch_findOne _ _ i). apply firstMatch_insert with (d := d); auto.
    apply matches_byId. destruct (applyChange_key ch d) as (-> & _).
    apply matches_byId. apply Hi.
  - unfold NextAttemptForTask. rewrite Hfind. fold ch.
    rewrite (findAndModify_firstMatch _ ch _ _ _ Hi).
    destruct (Active _ && _ && _); reflexivity.
Qed.

(** Case analysis on whether the retry policy of [task] has attempts left;
    each case is closed by computation or by linear arithmetic. *)
Ltac retry_budget task :=
  destruct (Z.ltb_spec (Attempts (retry task)) (MaxAttempts (retry task)));
  first [reflexivity | lia].

Lemma outcome_error task now :
  outcome cronNext task "error" now =
  if (Attempts (retry task) <? MaxAttempts (retry task))%Z
  then {| o_status := "retrying";
          o_at := now + nextDelay (retry task) * 1000000000; o_err := None;
          o_errors := 1; o_retryAttempts := 1 |}
  else {| o_status := "error"; o_at := 0;
          o_err := Some ErrMaxAttemptsExceeded;
          o_errors := 1; o_retryAttempts := 1 |}.
Proof.
  unfold outcome, NextAttempt.
  destruct (Active task && negb (Schedule task =? "")); cbn [String.eqb Ascii.eqb Bool.eqb];
    [destruct (nextRun cronNext (Schedule task) now)|];
    destruct (Attempts (retry task) <? MaxAttempts (retry task))%Z; reflexivity.
Qed.

Lemma outcome_other task status now :
  status <> "error" ->
  o_status (outcome cronNext task status now) = status /\
  o_errors (outcome cronNext task status now) = 0 /\
  o_at (outcome cronNext task status now) =
    if Active task && negb (Schedule task =? "")
    then fst (nextRun cronNext (Schedule task) now) else 0.
Proof.
  intros Hne. unfold outcome.
  destruct (String.eqb_spec status "error") as [|_]; [contradiction|].
  destruct (Active task && negb (Schedule task =? ""));
    [destruct (nextRun cronNext (Schedule task) now)|];
    destruct (status =? "success"); auto.
Qed.

(** C2 (as amended). NextAttemptForTask on an existing task. If the outcome
    is error, at is what the retry policy answers: now plus the retry delay,
    with the status overridden to "retrying", when retry.attempts <
    retry.maxAttempts; and 0, with the status left "error", when the retries
    are exhausted, whatever the schedule. If the outcome is not error and the
    task is active with a non-empty schedule, at is the next cron firing.
    Otherwise at is 0. The new active flag is (at > 0). *)
Theorem NextAttemptForTask_next_run attemptID now taskID status db d :
  findOne (byId taskID) (tasks db) = Some d ->
  let task := row d in
  let db' := fst (fst (NextAttemptForTask cronNext attemptID now taskID status db)) in
  exists d',
    findOne (byId taskID) (tasks db') = Some d' /\
    let new := row d' in
    Active new = (At new >? 0)%Z /\
    (status = "error" -> Attempts (retry task) < MaxAttempts (retry task) ->
       At new = now + nextDelay (retry task) * 1000000000 /\
       Status new = "retrying") /\
    (status = "error" -> MaxAttempts (retry task) <= Attempts (retry task) ->
       At new = 0 /\ Status new = "error") /\
    (status <> "error" -> Active task = true -> Schedule task <> "" ->
       forall next, cronNext (Schedule task) now = Some next ->
       At new = next /\ Status new = status) /\
    (status <> "error" -> Active task = false \/ Schedule task = "" ->
       At new = 0 /\ Status new = status).
Proof.
  intros Hfind task db'.
  destruct (NextAttemptForTask_found attemptID now taskID status db d Hfind)
    as (i & d' & _ & _ & Hrow & Hfind' & Hcall).
  exists d'. split.
  { subst db'. rewrite Hcall. now destruct (Active _ && _ && _). }
  cbn zeta. rewrite Hrow. cbn [finalized Active At Status]. fold task.
  split; [reflexivity|]. repeat split.
  1-4: subst status; rewrite outcome_error; retry_budget task.
  - destruct (outcome_other task status now H) as (_ & _ & ->).
    rewrite H0. destruct (String.eqb_spec (Schedule task) ""); [contradiction|].
    cbn. unfold nextRun. now rewrite H2.
  - apply (outcome_other task status now H).
  - destruct (outcome_other task status now H) as (_ & _ & ->).
    destruct H0 as [-> | ->]; [reflexivity|]. cbn. now rewrite andb_false_r.
  - apply (outcome_other task status now H).
Qed.

Lemma wrap64_small z : - 2 ^ 63 <= z < 2 ^ 63 -> wrap64 z = z.
Proof. intros H. unfold wrap64. rewrite Z.mod_small; lia. Qed.

(** X24. The counters and timestamps NextAttemptForTask writes, all in the one
    update: executions grows by one; an error adds one to errors and to
    retry.attempts; a success brings retry.attempts back to 0 and sets
    last_success; executed is set. last_error is set by an error only when
    the retries are exhausted: otherwise the status has become "retrying"
    by the time the key of the timestamp is built. *)
Lemma NextAttemptForTask_counters attemptID now taskID status db d :
  findOne (byId taskID) (tasks db) = Some d ->
  let task := row d in
  let db' := fst (fst (NextAttemptForTask cronNext attemptID now taskID status db)) in
  exists d',
    findOne (byId taskID) (tasks db') = Some d' /\
    let new := row d' in
    Executions new = Executions task + 1 /\
    Executed new = unixSeconds now /\
    (status = "error" ->
       Errors new = Errors task + 1 /\
       Attempts (retry new) = Attempts (retry task) + 1 /\
       LastError new =
         if (Attempts (retry task) <? MaxAttempts (retry task))%Z
         then LastError task else unixSeconds now) /\
    (status = "success" -> - 2 ^ 63 < Attempts (retry task) <= 2 ^ 63 ->
       Errors new = Errors task /\ Attempts (retry new) = 0 /\
       LastSuccess new = unixSeconds now).
Proof.
  intros Hfind task db'.
  destruct (NextAttemptForTask_found attemptID now taskID status db d Hfind)
    as (i & d' & _ & _ & Hrow & Hfind' & Hcall).
  exists d'. split.
  { subst db'. rewrite Hcall. now destruct (Active _ && _ && _). }
  cbn zeta. rewrite Hrow. cbn. fold task. repeat split.
  1-3: subst status; rewrite outcome_error; retry_budget task.
  - subst status. destruct (outcome_other task "success" now) as (_ & -> & _);
      [discriminate|lia].
  - subst status. unfold outcome.
    destruct (Active task && negb (Schedule task =? ""));
      [destruct (nextRun cronNext (Schedule task) now)|];
      cbn; rewrite wrap64_small; lia.
  - subst status. destruct (outcome_other task "success" now) as (-> & _);
      [discriminate|reflexivity].
Qed.

(** C4. After the update of NextAttemptForTask, a new pending attempt of the
    task is created, at the row's at and on its queue, if and only if the
    resulting row is active, has at <> 0 and is not deleted; otherwise the
    attempts are left as they are. *)
Theorem NextAttemptForTask_enqueues_iff_due attemptID now taskID status db d :
  findOne (byId taskID) (tasks db) = Some d ->
  exists db' attempt err d',
    NextAttemptForTask cronNext attemptID now taskID status db = (db', attempt, err) /\
    findOne (byId taskID) (tasks db') = Some d' /\
    (due (row d') <->
     exists a, attempt = Some a /\ attempts db' = (attempts db ++ [a])%list /\
               AttemptStatus a = "pending" /\ AttemptTaskID a = taskID /\
               AttemptAt a = At (row d') /\ AttemptQueue a = Queue (row d')) /\
    (~ due (row d') <-> attempt = None /\ attempts db' = attempts db).
Proof.
  intros Hfind.
  destruct (NextAttemptForTask_found attemptID now taskID status db d Hfind)
    as (i & d' & Hi & Hd' & Hrow & Hfind' & Hcall).
  assert (Hid : ID (row d') = taskID).
  { apply matches_byId. destruct (findOne_firstMatch _ _ _ Hfind') as (j & _ & Hm & _).
    exact Hm. }
  unfold due.
  destruct (Active (row d')) eqn:Hact, (Z.eqb_spec (At (row d')) 0) as [Hat|Hat],
    (Deleted (row d')) eqn:Hdel; cbn in Hcall;
    (eexists _, _, _, d'; split; [exact Hcall|]; split; [exact Hfind'|]);
    cbn [attempts];
    try (split;
         [ split; [intros (? & ? & ?); congruence | intros (a & [=] & _)]
         | split; [auto | intros _ (? & ? & ?); congruence] ]).
  split.
  - split; [intros _|auto]. eexists; repeat split; auto.
  - split; [intros H; exfalso; apply H; auto | intros [[=] _]].
Qed.

(** The three ways NewTask ends once the first run is known: the insert went
    through; the insert hit the key of an existing row, which is updated; the
    insert hit an existing [_id] only, and the update finds no row. *)
Lemma NewTask_cases
    taskID attemptID now account application name queue URL a method headers
    payload schedule r active db at_ :
  firstRun cronNext schedule now = (at_, None) ->
  let task := buildTask taskID account application name queue URL a method
                headers payload schedule r active at_ in
  let result := NewTask cronNext taskID attemptID now account application name
                  queue URL a method headers payload schedule r active db in
  (Insert task (tasks db) = inl (tasks db ++ [{| row := task; extra := ∅ |}])%list /\
   result = ({| tasks := (tasks db ++ [{| row := task; extra := ∅ |}])%list;
                attempts := (attempts db ++ [pendingFor attemptID task])%list |},
             Some task, None)) \/
  (exists i d atts,
     firstMatch (keyQuery account application (Name task)) (tasks db) i d /\
     result = ({| tasks := <[i := {| row := replaced (row d) task active;
                                     extra := extra d |}]> (tasks db);
                  attempts := atts |},
               Some (replaced (row d) task active), None)) \/
  ((exists d, d ∈ tasks db /\ ID (row d) = taskID) /\
   result = (db, Some task, Some ErrNotFound)).
Proof.
  intros Hrun task result.
  destruct (existsb (sameKey task) (tasks db)) eqn:Hkey.
  - right; left.
    destruct (NewTask_on_duplicate taskID attemptID now account application
                name queue URL a method headers payload schedule r active db at_
                Hrun Hkey) as (i & d & Hi & Hcall).
    exists i, d. eexists. split; [exact Hi|]. exact Hcall.
  - subst result. unfold NewTask. rewrite Hrun. fold task.
    unfold Insert.
    destruct (existsb (fun d => (ID (row d) =? ID task) || sameKey task d) (tasks db))
      eqn:Hdup.
    + right; right.
      assert (Hnone : findOne (keyQuery (Account task) (Application task) (Name task))
                        (tasks db) = None).
      { apply findOne_None. intros d Hd. rewrite <- sameKey_matches.
        destruct (sameKey task d) eqn:Hk; auto.
        assert (existsb (sameKey task) (tasks db) = true); [|congruence].
        apply existsb_exists. exists d. split; [|exact Hk].
        apply list_elem_of_In; exact Hd. }
      rewrite (findAndModify_None _ _ _ Hnone). split; [|reflexivity].
      apply existsb_exists in Hdup as (d & Hd & Ht).
      exists d. split; [now apply list_elem_of_In|].
      apply orb_true_iff in Ht as [Ht|Ht].
      * now apply String.eqb_eq in Ht.
      * assert (existsb (sameKey task) (tasks db) = true); [|congruence].
        apply existsb_exists. eauto.
    + left. split; reflexivity.
Qed.

Lemma firstRun_cases schedule now :
  firstRun cronNext schedule now =
  if schedule =? "" then (now, None)
  else match cronNext schedule now with
       | Some next => (next, None)
       | None => (0, Some ErrCron)
       end.
Proof. unfold firstRun, nextRun. now destruct (schedule =? ""). Qed.

(** What NewTask returns once the first run is known: a task whose at is the
    first run and whose name, method, payload, retry and active flag are the
    normalised ones. *)
Lemma NewTask_returns
    taskID attemptID now account application name queue URL a method headers
    payload schedule r active db at_ :
  firstRun cronNext schedule now = (at_, None) ->
  let task := buildTask taskID account application name queue URL a method
                headers payload schedule r active at_ in
  exists db' t err,
    NewTask cronNext taskID attemptID now account application name queue URL a
      method headers payload schedule r active db = (db', Some t, err) /\
    err <> Some ErrCron /\
    At t = at_ /\ Active t = (at_ >? 0)%Z && active /\
    Name t = Name task /\ Method t = Method task /\ Payload t = Payload task /\
    retry t = retry task.
Proof.
  intros Hrun task.
  destruct (NewTask_cases taskID attemptID now account application name queue
              URL a method headers payload schedule r active db at_ Hrun)
    as [(_ & ->) | [(i & d & atts & Hi & ->) | (_ & ->)]].
  - eexists _, task, _. repeat split; auto; discriminate.
  - eexists _, _, _. split; [reflexivity|]. repeat split; try discriminate.
    cbn. destruct Hi as (_ & Hm & _). apply matches_keyQuery in Hm. apply Hm.
  - eexists _, task, _. repeat split; auto; discriminate.
Qed.

(** C6. NewTask takes the first run from the cron expression when there is
    one and from the clock otherwise, and it returns the validation error of
    the cron parser, with no task and the database untouched, if and only if
    the schedule is non-empty and does not parse. *)
Theorem NewTask_first_run
    taskID attemptID now account application name queue URL a method headers
    payload schedule r active db :
  let result := NewTask cronNext taskID attemptID now account application name
                  queue URL a method headers payload schedule r active db in
  (schedule = "" ->
   exists db' t err, result = (db', Some t, err) /\ At t = now) /\
  (schedule <> "" -> forall next, cronNext schedule now = Some next ->
   exists db' t err, result = (db', Some t, err) /\ At t = next) /\
  (snd result = Some ErrCron <-> schedule <> "" /\ cronNext schedule now = None) /\
  (snd result = Some ErrCron -> result = (db, None, Some ErrCron)).
Proof.
  intros result. pose proof (firstRun_cases schedule now) as Hrun.
  destruct (String.eqb_spec schedule "") as [Hs|Hs].
  - destruct (NewTask_returns taskID attemptID now account application name queue
                URL a method headers payload schedule r active db now Hrun)
      as (db' & t & err & Hcall & Herr & Hat & _).
    fold result in Hcall. rewrite Hcall. cbn [snd].
    split; [intros _; eauto|]. split; [contradiction|].
    split; [|intros [=]; congruence].
    split; [intros [=]; congruence | intros [? _]; contradiction].
  - destruct (cronNext schedule now) as [next|] eqn:Hcron.
    + destruct (NewTask_returns taskID attemptID now account application name queue
                  URL a method headers payload schedule r active db next Hrun)
        as (db' & t & err & Hcall & Herr & Hat & _).
      fold result in Hcall. rewrite Hcall. cbn [snd].
      split; [contradiction|]. split; [intros _ ? [= <-]; eauto|].
      split; [|intros [=]; congruence].
      split; [intros [=]; congruence | intros [_ ?]; discriminate].
    + assert (Hcall : result = (db, None, Some ErrCron)).
      { subst result. unfold NewTask. now rewrite Hrun. }
      rewrite Hcall. cbn [snd].
      split; [contradiction|]. split; [intros _ ? [=]|]. split; auto.
      split; auto.
Qed.

(** C7 (as amended). NewTask applies its defaults to what it stores and
    returns: an empty name becomes the hexadecimal task id, an empty method
    becomes "POST", the payload is emptied whenever the method is not POST,
    and the zero fields of the retry policy become maxAttempts 10, factor 2,
    min 10 and max 300. An empty queue becomes "default" on the task of a key
    that is free; on a key that is taken the existing row keeps the queue it
    had, the queue not being among the fields the update sets. *)
Theorem NewTask_defaults
    taskID attemptID now account application name queue URL a method headers
    payload schedule r active db at_ :
  firstRun cronNext schedule now = (at_, None) ->
  let method' := if method =? "" then "POST" else method in
  let task := buildTask taskID account application name queue URL a method
                headers payload schedule r active at_ in
  exists db' t err,
    NewTask cronNext taskID attemptID now account application name queue URL a
      method headers payload schedule r active db = (db', Some t, err) /\
    Name t = (if name =? "" then Hex taskID else name) /\
    Method t = method' /\
    Payload t = (if method' =? "POST" then payload else "") /\
    MaxAttempts (retry t) = (if (MaxAttempts r =? 0)%Z then 10 else MaxAttempts r) /\
    Factor (retry t) = (if (Factor r =? 0)%Z then 2 else Factor r) /\
    Min (retry t) = (if (Min r =? 0)%Z then 10 else Min r) /\
    Max (retry t) = (if (Max r =? 0)%Z then 300 else Max r) /\
    (existsb (sameKey task) (tasks db) = false ->
     Queue t = (if queue =? "" then "default" else queue)) /\
    (forall i d,
       firstMatch (keyQuery account application (Name task)) (tasks db) i d ->
       Queue t = Queue (row d)).
Proof.
  intros Hrun method' task.
  assert (Hbuilt : Name task = (if name =? "" then Hex taskID else name) /\
                   Method task = method' /\
                   Payload task = (if method' =? "POST" then payload else "") /\
                   MaxAttempts (retry task) =
                     (if (MaxAttempts r =? 0)%Z then 10 else MaxAttempts r) /\
                   Factor (retry task) = (if (Factor r =? 0)%Z then 2 else Factor r) /\
                   Min (retry task) = (if (Min r =? 0)%Z then 10 else Min r) /\
                   Max (retry task) = (if (Max r =? 0)%Z then 300 else Max r)).
  { cbn. subst method'. repeat split. now destruct (_ =? "POST"). }
  destruct Hbuilt as (Hname & Hmethod & Hpayload & Hmax & Hfactor & Hmin & Hmax').
  destruct (existsb (sameKey task) (tasks db)) eqn:Hkey.
  - destruct (NewTask_on_duplicate taskID attemptID now account application name
                queue URL a method headers payload schedule r active db at_
                Hrun Hkey) as (i & d & Hi & Hcall).
    eexists _, _, _. split; [exact Hcall|].
    assert (Hm := Hi). destruct Hm as (_ & Hm & _).
    apply matches_keyQuery in Hm as (_ & _ & Hn).
    cbn [replaced Name Method Payload retry Queue]. rewrite Hn.
    split; [exact Hname|]. split; [exact Hmethod|]. split; [exact Hpayload|].
    split; [exact Hmax|]. split; [exact Hfactor|]. split; [exact Hmin|].
    split; [exact Hmax'|]. split; [discriminate|].
    intros i' d' Hi'.
    pose proof (firstMatch_findOne _ _ _ _ Hi) as H1.
    pose proof (firstMatch_findOne _ _ _ _ Hi') as H2.
    assert (Hsame : Some d = Some d') by (rewrite <- H1; exact H2).
    now injection Hsame as <-.
  - assert (Hnone : forall i d,
              ~ firstMatch (keyQuery account application (Name task)) (tasks db) i d).
    { intros i d Hi. apply (firstMatch_existsb task) in Hi.
      rewrite Hkey in Hi. discriminate Hi. }
    assert (Hqueue : Queue task = (if queue =? "" then "default" else queue))
      by reflexivity.
    destruct (NewTask_cases taskID attemptID now account application name queue
                URL a method headers payload schedule r active db at_ Hrun)
      as [(_ & Hcall) | [(i & d & atts & Hi & _) | (_ & Hcall)]];
      [| now destruct (Hnone i d) |];
      (eexists _, _, _; split; [exact Hcall|];
       split; [exact Hname|]; split; [exact Hmethod|]; split; [exact Hpayload|];
       split; [exact Hmax|]; split; [exact Hfactor|]; split; [exact Hmin|];
       split; [exact Hmax'|]; split; [intros _; exact Hqueue|];
       intros i d Hi; now destruct (Hnone i d)).
Qed.

Lemma elem_of_insert_inv (l : list TaskDoc) i x d :
  d ∈ <[i := x]> l -> d = x \/ d ∈ l.
Proof.
  intros H. apply list_elem_of_lookup in H as (j & Hj).
  apply list_lookup_insert_Some in Hj as [(_ & -> & _) | (_ & Hj)]; auto.
  right. apply list_elem_of_lookup. eauto.
Qed.

(** C8. Every row that NewTask (by insert or by update on a duplicate key)
    or NextAttemptForTask writes satisfies active => at > 0: each row of the
    new store is a row of the old one or satisfies it, and so does the task
    NewTask returns. The converse is not established: NewTask with
    active = false stores a row with at > 0 that is not active. *)
Theorem writes_keep_active_scheduled :
  (forall taskID attemptID now account application name queue URL a method
          headers payload schedule r active db,
     let result := NewTask cronNext taskID attemptID now account application
                     name queue URL a method headers payload schedule r active db in
     (forall d, d ∈ tasks (fst (fst result)) -> d ∈ tasks db \/ scheduled (row d)) /\
     (forall t, snd (fst result) = Some t -> scheduled t)) /\
  (forall attemptID now taskID status db,
     let result := NextAttemptForTask cronNext attemptID now taskID status db in
     (forall d, d ∈ tasks (fst (fst result)) -> d ∈ tasks db \/ scheduled (row d)) /\
     (forall d, findOne (byId taskID) (tasks db) <> None ->
                findOne (byId taskID) (tasks (fst (fst result))) = Some d ->
                scheduled (row d))) /\
  (exists taskID attemptID now db' t,
     NewTask cronNext taskID attemptID now "acc" "app" "n" "" "http://h/ok"
       {| Username := ""; Password := "" |} "" ∅ "" ""
       {| Attempts := 0; MaxAttempts := 0; Factor := 0; Min := 0; Max := 0 |}
       false {| tasks := []; attempts := [] |} = (db', Some t, None) /\
     {| row := t; extra := ∅ |} ∈ tasks db' /\ 0 < At t /\ Active t = false).
Proof.
  assert (Hbuilt : forall taskID account application name queue URL a method
                     headers payload schedule r active at_,
             scheduled (buildTask taskID account application name queue URL a
                          method headers payload schedule r active at_)).
  { intros. unfold scheduled; cbn. intros H. apply andb_true_iff in H as [H _]. lia. }
  assert (Hrepl : forall old task active, scheduled (replaced old task active)).
  { intros. unfold scheduled; cbn. intros H. apply andb_true_iff in H as [H _]. lia. }
  split; [|split].
  - intros taskID attemptID now account application name queue url a method
      headers payload schedule r active db result.
    destruct (firstRun cronNext schedule now) as [at_ [e|]] eqn:Hrun.
    { subst result. unfold NewTask. rewrite Hrun. cbn. split; [auto|discriminate]. }
    destruct (NewTask_cases taskID attemptID now account application name queue
                url a method headers payload schedule r active db at_ Hrun)
      as [(_ & Hcall) | [(i & d0 & atts & Hi & Hcall) | (_ & Hcall)]];
      fold result in Hcall; rewrite Hcall; cbn [fst snd tasks]; split.
    + intros d Hd. apply elem_of_app in Hd as [Hd|Hd]; auto.
      apply list_elem_of_singleton in Hd as ->. right. apply Hbuilt.
    + intros t [= <-]. apply Hbuilt.
    + intros d Hd. apply elem_of_insert_inv in Hd as [->|Hd];
        [right; apply Hrepl | auto].
    + intros t [= <-]. apply Hrepl.
    + auto.
    + intros t [= <-]. apply Hbuilt.
  - intros attemptID now taskID status db result.
    destruct (findOne (byId taskID) (tasks db)) as [d0|] eqn:Hfind.
    + destruct (NextAttemptForTask_found attemptID now taskID status db d0 Hfind)
        as (i & d' & _ & _ & Hrow & Hfind' & Hcall).
      assert (Hd' : scheduled (row d')).
      { rewrite Hrow. unfold scheduled; cbn. lia. }
      assert (Htasks : tasks (fst (fst result)) = <[i := d']> (tasks db)).
      { subst result. rewrite Hcall. now destruct (Active _ && _ && _). }
      rewrite Htasks. split.
      * intros d Hd. apply elem_of_insert_inv in Hd as [->|Hd]; auto.
      * intros d _ Hd. rewrite Hfind' in Hd. now injection Hd as <-.
    + subst result. unfold NextAttemptForTask. rewrite Hfind. cbn.
      split; [auto|]. intros d H. contradiction.
  - exists "t1", "a1", 1. eexists _, _. split; [reflexivity|].
    split; [left|]. split; [cbn; lia|reflexivity].
Qed.

(** ** The REST handler *)

Variable idTime : ObjectId -> string.
Variable UnixToRFC3339 : Z -> string.

(** C10. PutTask hands NewTask active = true when the body has no active
    field and the value of the field otherwise; the task is then created or
    replaced with active = (at > 0) && that value, which is (at > 0) when the
    field is missing, and the stored task is the one written back as JSON. *)
Theorem PutTask_default_active
    taskID attemptID now accountID applicationName taskName rt db at_ :
  firstRun cronNext (restapi.Schedule rt) now = (at_, None) ->
  (forall d, d ∈ tasks db -> ID (row d) <> taskID) ->
  let active := match restapi.Active rt with None => true | Some b => b end in
  exists db' t d,
    NewTask cronNext taskID attemptID now accountID applicationName taskName
      (restapi.Queue rt) (restapi.URL rt) (restapi.HTTPAuth rt)
      (restapi.Method rt) (restapi.Headers rt) (restapi.Payload rt)
      (restapi.Schedule rt) (restapi.Retry rt) active db = (db', Some t, None) /\
    restapi.PutTask cronNext idTime UnixToRFC3339 taskID attemptID now
      (inl (accountID, applicationName, taskName)) (inl rt) db =
    (db', restapi.Json (restapi.NewTaskFromModel idTime UnixToRFC3339 t)) /\
    d ∈ tasks db' /\ row d = t /\
    At t = at_ /\
    Active t = (at_ >? 0)%Z && active /\
    (restapi.Active rt = None -> Active t = (at_ >? 0)%Z).
Proof.
  intros Hrun Hfresh active.
  assert (Hreq : restapi.requestedActive rt = active) by reflexivity.
  assert (Hnone : restapi.Active rt = None -> active = true).
  { subst active. now intros ->. }
  unfold restapi.PutTask. rewrite Hreq.
  destruct (NewTask_cases taskID attemptID now accountID applicationName taskName
              (restapi.Queue rt) (restapi.URL rt) (restapi.HTTPAuth rt)
              (restapi.Method rt) (restapi.Headers rt) (restapi.Payload rt)
              (restapi.Schedule rt) (restapi.Retry rt) active db at_ Hrun)
    as [(_ & ->) | [(i & d & atts & Hi & ->) | ((d & Hd & Hid) & _)]].
  - eexists _, _, _. split; [reflexivity|]. split; [reflexivity|].
    split; [apply elem_of_app; right; left|]. split; [reflexivity|]. cbn.
    repeat split. intros H. rewrite (Hnone H). apply andb_true_r.
  - eexists _, _, _. split; [reflexivity|]. split; [reflexivity|].
    split; [apply list_elem_of_insert; apply (lookup_lt_Some _ _ d), Hi|].
    split; [reflexivity|]. cbn.
    repeat split. intros H. rewrite (Hnone H). apply andb_true_r.
  - exfalso. now apply (Hfresh d).
Qed.

End Claims.

(** * The operations on concrete stores *)

Import fixtures.


(** The first attempt of the task "n" fails. *)
Lemma NextAttemptForTask_next_run_witness :
  findOne (byId "t1") (tasks created) = Some createdDoc /\
  exists d',
    findOne (byId "t1")
      (tasks (dbOf (NextAttemptForTask everyMinute "a2" (t0 + 5) "t1" "error" created)))
    = Some d' /\
    Active (row d') = (At (row d') >? 0)%Z.
Proof.
  assert (Hfind : findOne (byId "t1") (tasks created) = Some createdDoc)
    by (vm_compute; reflexivity).
  split; [exact Hfind|].
  destruct (NextAttemptForTask_next_run everyMinute "a2" (t0 + 5) "t1" "error"
              created createdDoc Hfind) as (d' & Hd' & Hactive & _).
  exists d'. split; [exact Hd'|exact Hactive].
Defined.

(** A task that runs every minute and has used up its retries: a further
    error leaves at = 0 and the task inactive, not the next cron firing. *)
Lemma NextAttemptForTask_exhausted_drops_cron :
  let now := t0 + 7000000000 in
  let db' := dbOf (NextAttemptForTask everyMinute "a3" now "t1" "error" retried) in
  (Active <$> taskRow "t1" retried) = Some true /\
  (Schedule <$> taskRow "t1" retried) = Some "* * * * *" /\
  (retry <$> taskRow "t1" retried) =
    Some {| Attempts := 1; MaxAttempts := 1; Factor := 1; Min := 1; Max := 1 |} /\
  everyMinute "* * * * *" now = Some 1767225660000000000 /\
  (At <$> taskRow "t1" db') = Some 0 /\
  (Active <$> taskRow "t1" db') = Some false /\
  (Status <$> taskRow "t1" db') = Some "error" /\
  (At <$> taskRow "t1" db') <> everyMinute "* * * * *" now.
Proof. vm_compute. repeat split; discriminate. Qed.

(** C3 at a failing input: the first error of a task that may be retried.
    The counters and [executed] are written, but the timestamp goes to a
    field [last_retrying] that no [Task] field reads, and [last_error] stays
    unset. *)
Theorem NextAttemptForTask_error_misses_last_error :
  let now := t0 + 5000000000 in
  let db' := dbOf (NextAttemptForTask everyMinute "a2" now "t1" "error" created) in
  (Status <$> taskRow "t1" db') = Some "retrying" /\
  (Executions <$> taskRow "t1" db') = Some 1 /\
  (Errors <$> taskRow "t1" db') = Some 1 /\
  (retry <$> taskRow "t1" db') =
    Some {| Attempts := 1; MaxAttempts := 10; Factor := 2; Min := 10; Max := 300 |} /\
  unixSeconds now = 1767225635 /\
  (Executed <$> taskRow "t1" db') = Some 1767225635 /\
  (LastError <$> taskRow "t1" db') = Some 0 /\
  taskExtra "t1" "last_error" db' = None /\
  taskExtra "t1" "last_retrying" db' = Some (BInt 1767225635).
Proof. vm_compute. repeat split. Qed.

(** The first attempt of the task "n" succeeds. *)
Lemma NextAttemptForTask_enqueues_iff_due_witness :
  findOne (byId "t1") (tasks created) = Some createdDoc /\
  exists db' attempt err,
    NextAttemptForTask everyMinute "a2" (t0 + 5) "t1" "success" created =
    (db', attempt, err).
Proof.
  assert (Hfind : findOne (byId "t1") (tasks created) = Some createdDoc)
    by (vm_compute; reflexivity).
  split; [exact Hfind|].
  destruct (NextAttemptForTask_enqueues_iff_due everyMinute "a2" (t0 + 5) "t1"
              "success" created createdDoc Hfind)
    as (db' & attempt & err & _ & Hcall & _).
  exists db', attempt, err. exact Hcall.
Defined.

(** C5 at a failing input: the task "n" after DeleteTask is invisible to
    GetTask, while GetTaskByID still returns it, deleted flag set. *)
Theorem GetTaskByID_returns_deleted :
  (Deleted <$> taskRow "t1" removed) = Some true /\
  GetTask "acc" "app" "n" removed = (None, None) /\
  (Deleted <$> fst (GetTaskByID "t1" removed)) = Some true /\
  snd (GetTaskByID "t1" removed) = None.
Proof. vm_compute. repeat split. Qed.

(** A task that runs every minute, created thirty seconds into a minute, is
    first due at the start of the next one. *)
Lemma NewTask_first_run_witness :
  exists db' t err,
    createCron "t1" "a1" t0 noRetry emptyDB = (db', Some t, err) /\
    At t = 1767225660000000000.
Proof.
  destruct (NewTask_first_run everyMinute "t1" "a1" t0 "acc" "app" "cron" ""
              "http://h/ok" noAuth "" ∅ "x" "* * * * *" noRetry true emptyDB)
    as (_ & Hcron & _).
  apply Hcron; [discriminate|vm_compute; reflexivity].
Defined.

(** A GET task declared without a name: it is named after its id, and its
    payload is dropped. *)
Lemma NewTask_defaults_witness :
  firstRun everyMinute "" t0 = (t0, None) /\
  exists db' t err,
    NewTask everyMinute "t1" "a1" t0 "acc" "app" "" "" "http://h/ok" noAuth
      "GET" ∅ "x" "" noRetry true emptyDB = (db', Some t, err) /\
    Name t = "7431" /\ Method t = "GET" /\ Payload t = "" /\
    MaxAttempts (retry t) = 10.
Proof.
  assert (Hrun : firstRun everyMinute "" t0 = (t0, None))
    by (vm_compute; reflexivity).
  split; [exact Hrun|].
  destruct (NewTask_defaults everyMinute "t1" "a1" t0 "acc" "app" "" ""
              "http://h/ok" noAuth "GET" ∅ "x" "" noRetry true emptyDB t0 Hrun)
    as (db' & t & err & Hcall & Hname & Hmethod & Hpayload & Hmax & _).
  exists db', t, err. repeat split; assumption.
Defined.

(** The task "n" of the queue "q1" is declared again with no queue: the
    task that is stored and returned is still in "q1", not in "default". *)
Lemma NewTask_replace_keeps_queue :
  let result :=
    NewTask everyMinute "t2" "a2" (t0 + 7) "acc" "app" "n" "" "http://h/new"
      noAuth "" ∅ "x" "" noRetry true queued in
  (Queue <$> taskRow "t1" queued) = Some "q1" /\
  snd result = None /\
  (URL <$> snd (fst result)) = Some "http://h/new" /\
  (Queue <$> snd (fst result)) = Some "q1" /\
  (Queue <$> taskRow "t1" (dbOf result)) = Some "q1" /\
  (Queue <$> snd (fst result)) <> Some "default".
Proof. vm_compute. repeat split; discriminate. Qed.

(** The row of the task "n" as NewTask wrote it. *)
Lemma writes_keep_active_scheduled_witness :
  snd (fst (createOnce "t1" "a1" t0 "http://h/ok" emptyDB)) = Some (row createdDoc) /\
  scheduled (row createdDoc).
Proof.
  assert (Hcall : snd (fst (createOnce "t1" "a1" t0 "http://h/ok" emptyDB)) =
                  Some (row createdDoc)) by (vm_compute; reflexivity).
  split; [exact Hcall|].
  destruct (writes_keep_active_scheduled everyMinute) as (Hnew & _).
  exact (proj2 (Hnew "t1" "a1" t0 "acc" "app" "n" "" "http://h/ok" noAuth "" ∅
                  "x" "" noRetry true emptyDB) (row createdDoc) Hcall).
Defined.

(** Listing the store [created] under an unknown status. *)
Lemma GetTasks_filters_witness :
  Filters bogusStatus !! "status" = Some "bogus" /\
  GetTasksQuery "acc" "app" bogusStatus = GetTasksQuery "acc" "app" noFilter.
Proof.
  assert (Hstatus : Filters bogusStatus !! "status" = Some "bogus")
    by (vm_compute; reflexivity).
  split; [exact Hstatus|].
  destruct (GetTasks_filters "acc" "app" bogusStatus created) as (_ & _ & Hquery & _).
  rewrite (Hquery "bogus" Hstatus); [|vm_compute; reflexivity].
  vm_compute. reflexivity.
Defined.

(** A status filter with a value that is no task status: the query is the
    one of a call with no filter, and so is all that GetTasks returns, the
    task listed and no error. *)
Lemma GetTasks_unknown_status_no_error :
  knownStatus "bogus" = false /\
  GetTasksQuery "acc" "app" bogusStatus = GetTasksQuery "acc" "app" noFilter /\
  GetTasks "acc" "app" bogusStatus created = GetTasks "acc" "app" noFilter created /\
  List (fst (GetTasks "acc" "app" bogusStatus created)) = [row createdDoc] /\
  ~ (exists e, snd (GetTasks "acc" "app" bogusStatus created) = Some e).
Proof.
  split; [vm_compute; reflexivity|].
  split; [vm_compute; reflexivity|].
  split; [vm_compute; reflexivity|].
  split; [vm_compute; reflexivity|].
  intros (e & He). vm_compute in He. discriminate He.
Qed.

(** A PUT whose body has no active field, on an empty store. *)
Lemma PutTask_default_active_witness :
  firstRun everyMinute "" t0 = (t0, None) /\
  exists db' t,
    restapi.PutTask everyMinute noTime noTime "t1" "a1" t0
      (inl ("acc", "app", "n")) (inl bodyWithoutActive) emptyDB =
    (db', restapi.Json (restapi.NewTaskFromModel noTime noTime t)) /\
    Active t = (t0 >? 0)%Z.
Proof.
  assert (Hrun : firstRun everyMinute "" t0 = (t0, None))
    by (vm_compute; reflexivity).
  assert (Hfresh : forall d : TaskDoc, d ∈ tasks emptyDB -> ID (row d) <> "t1").
  { intros d Hd. simpl in Hd. inversion Hd. }
  split; [exact Hrun|].
  destruct (PutTask_default_active everyMinute noTime noTime "t1" "a1" t0 "acc"
              "app" "n" bodyWithoutActive emptyDB t0 Hrun Hfresh)
    as (db' & t & d & _ & Hput & _ & _ & _ & _ & Hactive).
  exists db', t. split; [exact Hput|]. apply Hactive. reflexivity.
Defined.

(** * Further properties *)

(** ** The error rate *)

(** X1. ErrorRate is a percentage: the integer part of errors * 100 /
    executions, between 0 and 100, for counters with no more errors than
    executions. *)
Theorem ErrorRate_percent t :
  0 <= Errors t <= Executions t -> Errors t * 100 < 2 ^ 63 ->
  ErrorRate t = Errors t * 100 / Executions t /\ 0 <= ErrorRate t <= 100.
Proof.
  intros Hcount Hsmall. unfold ErrorRate.
  destruct (Z.eqb_spec (Executions t) 0) as [Hzero|Hpos].
  - rewrite Hzero, Z.div_0_r. lia.
  - rewrite wrap64_small by lia. rewrite Z.quot_div_nonneg by lia.
    split; [reflexivity|]. split.
    + apply Z.div_pos; lia.
    + apply Z.div_le_upper_bound; lia.
Qed.

(** ** Soft deletion *)

Lemma deleted_doc d : applyChange deletedChange d = markDeleted d.
Proof. reflexivity. Qed.

Lemma matches_key_markDeleted account application name d :
  matches (keyQuery account application name) (markDeleted d) =
  matches (keyQuery account application name) d.
Proof. apply eq_true_iff_eq. now rewrite !matches_keyQuery. Qed.

Lemma markDeleted_twice d : markDeleted (markDeleted d) = markDeleted d.
Proof. reflexivity. Qed.

Lemma matches_key_keyOf account application name d :
  matches (keyQuery account application name) d = true <->
  keyOf d = (account, application, name).
Proof.
  rewrite matches_keyQuery. unfold keyOf. split.
  - now intros (-> & -> & ->).
  - intros [= -> -> ->]. auto.
Qed.

Lemma findOne_map_ext q (f : TaskDoc -> TaskDoc) l :
  (forall d, d ∈ l -> matches q (f d) = matches q d) ->
  (forall d, d ∈ l -> matches q d = true -> f d = d) ->
  findOne q (map f l) = findOne q l.
Proof.
  unfold findOne. induction l as [|x l IH]; intros Hm Hf; simpl; [reflexivity|].
  rewrite (Hm x) by left. destruct (matches q x) eqn:Hx.
  - rewrite (Hf x); auto. left.
  - apply IH; intros d Hd; [apply Hm|apply Hf]; now right.
Qed.

(** X2. Once DeleteTask has run, GetTask finds no task under the key, and the
    GET handler answers not found. *)
Theorem DeleteTask_then_GetTask
    (idTime : ObjectId -> string) (UnixToRFC3339 : Z -> string)
    account application name db :
  let db' := fst (DeleteTask account application name db) in
  GetTask account application name db' = (None, None) /\
  restapi.GetTask idTime UnixToRFC3339
    (inl (account, application, name))
    (fst (restapi.DeleteTask (inl (account, application, name)) db)) =
  restapi.ReplyNotFound.
Proof.
  intros db'.
  assert (Hget : GetTask account application name db' = (None, None)).
  { unfold GetTask.
    replace (findOne _ (tasks db')) with (@None TaskDoc); [reflexivity|].
    symmetry. apply findOne_None. intros d' Hd'.
    destruct (matches _ d') eqn:Hlive; [|reflexivity].
    apply matches_keyQuery_live in Hlive as (Hdel & Hkey).
    apply list_elem_of_In, in_map_iff in Hd' as (d & Hd & _).
    destruct (matches (keyQuery account application name) d) eqn:Hk.
    - rewrite deleted_doc in Hd. subst d'. discriminate Hdel.
    - subst d'. apply matches_keyQuery in Hkey. congruence. }
  split; [exact Hget|].
  subst db'. unfold restapi.GetTask, restapi.DeleteTask.
  unfold DeleteTask in *. cbn [fst] in *. now rewrite Hget.
Qed.

(** X3. DeleteTask on one key leaves the lookup of every other key as it was. *)
Theorem DeleteTask_other_key account application name account' application' name' db :
  (account', application', name') <> (account, application, name) ->
  GetTask account' application' name' (fst (DeleteTask account application name db)) =
  GetTask account' application' name' db.
Proof.
  intros Hne. unfold GetTask, DeleteTask, updateAllTasks. cbn [fst tasks].
  rewrite findOne_map_ext; [reflexivity| |].
  - intros d _. destruct (matches (keyQuery account application name) d) eqn:Hk;
      [|reflexivity].
    rewrite deleted_doc. apply matches_key_keyOf in Hk.
    apply eq_true_iff_eq. rewrite !matches_keyQuery_live.
    change (Account (row (markDeleted d))) with (Account (row d)).
    change (Application (row (markDeleted d))) with (Application (row d)).
    change (Name (row (markDeleted d))) with (Name (row d)).
    unfold keyOf in Hk.
    split; intros (_ & ? & ? & ?); exfalso; apply Hne; congruence.
  - intros d _ Hlive. apply matches_keyQuery_live in Hlive as (_ & Ha & Happ & Hn).
    destruct (matches (keyQuery account application name) d) eqn:Hk; [|reflexivity].
    apply matches_key_keyOf in Hk. unfold keyOf in Hk.
    exfalso; apply Hne; congruence.
Qed.

Lemma lookup_map {A B : Type} (f : A -> B) (l : list A) (j : nat) :
  map f l !! j = f <$> (l !! j).
Proof. apply (list_lookup_fmap f l j). Qed.

(** X4. DeleteTask removes nothing and writes nothing but deleted flags: the
    tasks with the key and the attempts of (account, application, task name)
    get the flag, every other task and attempt stays as it is. A deleted task
    keeps its at and its active flag, a deleted attempt its status. *)
Theorem DeleteTask_footprint account application name db :
  let db' := fst (DeleteTask account application name db) in
  length (tasks db') = length (tasks db) /\
  length (attempts db') = length (attempts db) /\
  (forall j d, tasks db !! j = Some d ->
     tasks db' !! j =
     Some (if decide (keyOf d = (account, application, name))
           then markDeleted d else d)) /\
  (forall j a, attempts db !! j = Some a ->
     attempts db' !! j =
     Some (if attemptOf account application name a
           then set_AttemptDeleted true a else a)) /\
  (forall d, At (row (markDeleted d)) = At (row d) /\
             Active (row (markDeleted d)) = Active (row d) /\
             Deleted (row (markDeleted d)) = true) /\
  (forall a, AttemptStatus (set_AttemptDeleted true a) = AttemptStatus a /\
             AttemptDeleted (set_AttemptDeleted true a) = true).
Proof.
  intros db'. subst db'. unfold DeleteTask, updateAllTasks. cbn [fst tasks attempts].
  rewrite !length_map. split; [reflexivity|]. split; [reflexivity|]. split; [|split].
  - intros j d Hj. rewrite lookup_map, Hj. cbn [fmap option_fmap option_map].
    f_equal. rewrite deleted_doc. case_decide as Hk.
    + apply matches_key_keyOf in Hk. now rewrite Hk.
    + destruct (matches _ d) eqn:Hm; [|reflexivity].
      apply matches_key_keyOf in Hm. contradiction.
  - intros j a Hj. now rewrite lookup_map, Hj.
  - split; intros; repeat split.
Qed.

(** X5. Deleting twice is deleting once. *)
Theorem DeleteTask_idempotent account application name db :
  DeleteTask account application name (fst (DeleteTask account application name db)) =
  DeleteTask account application name db.
Proof.
  unfold DeleteTask, updateAllTasks. cbn [fst tasks attempts].
  rewrite !map_map. f_equal. f_equal.
  - apply map_ext. intros d.
    destruct (matches (keyQuery account application name) d) eqn:Hk.
    + rewrite !deleted_doc, matches_key_markDeleted, Hk. apply markDeleted_twice.
    + now rewrite Hk.
  - apply map_ext. intros a.
    destruct ((AttemptAccount a =? account) && (AttemptApplication a =? application)
              && (AttemptTask a =? name)) eqn:Ha; [|now rewrite Ha].
    change (AttemptAccount (set_AttemptDeleted true a)) with (AttemptAccount a).
    change (AttemptApplication (set_AttemptDeleted true a)) with (AttemptApplication a).
    change (AttemptTask (set_AttemptDeleted true a)) with (AttemptTask a).
    now rewrite Ha.
Qed.

(** ** Deleting an application *)

Lemma matches_appQuery account application d :
  matches (appQuery account application) d = true <->
  Account (row d) = account /\ Application (row d) = application.
Proof.
  unfold matches, appQuery. rewrite bool_decide_eq_true.
  rewrite !map_Forall_insert by done.
  unfold holds, getField; simpl.
  split.
  - intros (? & ? & _). split; congruence.
  - intros (? & ?). repeat split; try congruence. apply map_Forall_empty.
Qed.

(** X6. Once DeleteTasks has run on an application, GetTask finds none of its
    tasks, GetTasks selects none whatever the filters, and the lookups in
    other applications are as they were. *)
Theorem DeleteTasks_empties_application
    (idTime : ObjectId -> string) (UnixToRFC3339 : Z -> string)
    account application db :
  let db' := fst (DeleteTasks account application db) in
  (forall name, GetTask account application name db' = (None, None)) /\
  (forall name name',
     restapi.GetTask idTime UnixToRFC3339 (inl (account, application, name'))
       (fst (restapi.DeleteTasks (inl (account, application, name)) db)) =
     restapi.ReplyNotFound) /\
  (forall lp d, d ∈ tasks db' ->
     matches (GetTasksQuery account application lp) d = false) /\
  (forall lp, List (fst (GetTasks account application lp db')) = []) /\
  (forall account' application' name,
     (account', application') <> (account, application) ->
     GetTask account' application' name db' = GetTask account' application' name db).
Proof.
  intros db'.
  assert (Hrows : forall d', d' ∈ tasks db' ->
            Account (row d') = account -> Application (row d') = application ->
            Deleted (row d') = true).
  { intros d' Hd' Ha Happ. subst db'. unfold DeleteTasks, updateAllTasks in Hd'.
    cbn [fst tasks] in Hd'.
    apply list_elem_of_In, in_map_iff in Hd' as (d & Hd & _).
    destruct (matches (appQuery account application) d) eqn:Hk.
    - rewrite deleted_doc in Hd. now subst d'.
    - subst d'. assert (Hyes : matches (appQuery account application) d = true).
      { apply matches_appQuery. split; assumption. }
      rewrite Hk in Hyes. discriminate Hyes. }
  assert (Hnone : forall lp d, d ∈ tasks db' ->
            matches (GetTasksQuery account application lp) d = false).
  { intros lp d Hd. destruct (matches _ d) eqn:Hm; [|reflexivity].
    apply matches_GetTasksQuery in Hm as (Ha & Happ & Hdel & _).
    rewrite (Hrows d Hd Ha Happ) in Hdel. discriminate. }
  assert (Hget : forall name, GetTask account application name db' = (None, None)).
  { intros name. unfold GetTask.
    replace (findOne _ (tasks db')) with (@None TaskDoc); [reflexivity|].
    symmetry. apply findOne_None. intros d Hd.
    destruct (matches _ d) eqn:Hm; [|reflexivity].
    apply matches_keyQuery_live in Hm as (Hdel & Ha & Happ & _).
    rewrite (Hrows d Hd Ha Happ) in Hdel. discriminate. }
  split; [exact Hget|]. split; [|split; [exact Hnone|split]].
  - intros name name'. unfold restapi.GetTask, restapi.DeleteTasks.
    change (fst (let (db1, o) := DeleteTasks account application db in
                 match o with
                 | Some err => (db1, restapi.ReplyError err)
                 | None => (db1, restapi.ReplyEmpty)
                 end)) with db'.
    now rewrite Hget.
  - intros lp. unfold GetTasks, getItems. cbn [fst List].
    destruct (filter _ (tasks db')) as [|x rest] eqn:Hsel;
      [cbn [map]; rewrite drop_nil; apply take_nil|].
    assert (Hx : x ∈ filter (fun d => matches (GetTasksQuery account application lp) d = true)
                   (tasks db')) by (rewrite Hsel; left).
    apply list_elem_of_filter in Hx as [Hm Hx]. rewrite (Hnone lp x Hx) in Hm.
    discriminate.
  - intros account' application' name Hne. subst db'.
    unfold GetTask, DeleteTasks, updateAllTasks. cbn [fst tasks].
    rewrite findOne_map_ext; [reflexivity| |].
    + intros d _. destruct (matches (appQuery account application) d) eqn:Hk;
        [|reflexivity].
      rewrite deleted_doc. apply matches_appQuery in Hk as [Ha Happ].
      apply eq_true_iff_eq. rewrite !matches_keyQuery_live.
      change (Account (row (markDeleted d))) with (Account (row d)).
      change (Application (row (markDeleted d))) with (Application (row d)).
      split; intros (_ & ? & ? & _); exfalso; apply Hne; congruence.
    + intros d _ Hlive. apply matches_keyQuery_live in Hlive as (_ & Ha & Happ & _).
      destruct (matches (appQuery account application) d) eqn:Hk; [|reflexivity].
      apply matches_appQuery in Hk as [? ?]. exfalso; apply Hne; congruence.
Qed.

(** ** Creation, seen by the lookups *)

Lemma findOne_snoc q l x :
  (forall d, d ∈ l -> matches q d = false) -> matches q x = true ->
  findOne q (l ++ [x]) = Some x.
Proof.
  unfold findOne. intros Hl Hx. induction l as [|y l IH]; simpl.
  - now rewrite Hx.
  - rewrite (Hl y) by left. apply IH. intros d Hd. apply Hl. now right.
Qed.

Lemma fmap_insert_same {B : Type} (f : TaskDoc -> B) (l : list TaskDoc) i d d' :
  l !! i = Some d -> f d' = f d -> f <$> <[i := d']> l = f <$> l.
Proof.
  intros Hi Hf. rewrite list_fmap_insert, Hf. apply list_insert_id.
  now rewrite list_lookup_fmap, Hi.
Qed.

Lemma fmap_map_same {B : Type} (f : TaskDoc -> B) (g : TaskDoc -> TaskDoc) l :
  (forall d, f (g d) = f d) -> f <$> map g l = f <$> l.
Proof.
  intros Hf. induction l as [|x l IH]; [reflexivity|].
  cbn. now rewrite Hf, IH.
Qed.

Section Further.

Variable cronNext : string -> Z -> option Z.

(** A call of NewTask that returns a task and no error either inserted the
    task it built, under an id and a key that were free, or replaced the
    first row with the key. *)
Lemma NewTask_success
    taskID attemptID now account application name queue url a method headers
    payload schedule r active db db' t :
  NewTask cronNext taskID attemptID now account application name queue url a
    method headers payload schedule r active db = (db', Some t, None) ->
  exists at_,
    firstRun cronNext schedule now = (at_, None) /\
    let task := buildTask taskID account application name queue url a method
                  headers payload schedule r active at_ in
    ((forall d, d ∈ tasks db -> ID (row d) <> taskID /\ sameKey task d = false) /\
     t = task /\
     tasks db' = (tasks db ++ [{| row := task; extra := ∅ |}])%list /\
     attempts db' = (attempts db ++ [pendingFor attemptID task])%list) \/
    (exists i d,
       firstMatch (keyQuery account application (Name task)) (tasks db) i d /\
       t = replaced (row d) task active /\
       tasks db' = <[i := {| row := t; extra := extra d |}]> (tasks db)).
Proof.
  intros Hcall.
  destruct (firstRun cronNext schedule now) as [at_ [e|]] eqn:Hrun.
  { unfold NewTask in Hcall. rewrite Hrun in Hcall. discriminate Hcall. }
  exists at_. split; [reflexivity|]. intros task.
  destruct (NewTask_cases cronNext taskID attemptID now account application name
              queue url a method headers payload schedule r active db at_ Hrun)
    as [(Hins & Hres) | [(i & d & atts & Hi & Hres) | (_ & Hres)]];
    fold task in Hres; rewrite Hres in Hcall.
  - left. injection Hcall as <- <-. fold task in Hins.
    apply Insert_inl in Hins as [_ Hfree]. repeat split; auto; apply Hfree; auto.
  - right. injection Hcall as <- <-. exists i, d. repeat split; apply Hi.
  - discriminate Hcall.
Qed.

Lemma NewTask_stored
    taskID attemptID now account application name queue url a method headers
    payload schedule r active db db' t :
  NewTask cronNext taskID attemptID now account application name queue url a
    method headers payload schedule r active db = (db', Some t, None) ->
  Account t = account /\ Application t = application /\ Deleted t = false /\
  findOne (<["deleted" := CEq (BBool false)]>
             (keyQuery account application (Name t))) (tasks db') =
  Some {| row := t; extra := match findOne (keyQuery account application (Name t))
                                     (tasks db) with
                             | Some d => extra d
                             | None => ∅
                             end |}.
Proof.
  intros Hcall.
  destruct (NewTask_success _ _ _ _ _ _ _ _ _ _ _ _ _ _ _ _ _ _ Hcall)
    as (at_ & Hrun & [(Hfree & -> & Htasks & _) | (i & d & Hi & -> & Htasks)]).
  - split; [reflexivity|]. split; [reflexivity|]. split; [reflexivity|].
    rewrite Htasks.
    assert (Hnone : findOne (keyQuery account application
                      (Name (buildTask taskID account application name queue url a
                               method headers payload schedule r active at_)))
                      (tasks db) = None).
    { apply findOne_None. intros d Hd. rewrite <- (proj2 (Hfree d Hd)).
      symmetry. apply sameKey_matches. }
    rewrite Hnone. apply findOne_snoc.
    + intros d Hd. destruct (matches _ d) eqn:Hm; [|reflexivity].
      apply matches_keyQuery_live in Hm as (_ & Hm).
      apply matches_keyQuery in Hm. rewrite findOne_None in Hnone.
      rewrite (Hnone d Hd) in Hm. discriminate Hm.
    + apply matches_keyQuery_live. cbn. auto.
  - assert (Hkey := Hi). destruct Hkey as (Hl & Hm & Hfirst).
    apply matches_keyQuery in Hm as (Ha & Happ & Hn).
    cbn [replaced Account Application Deleted Name].
    split; [exact Ha|]. split; [exact Happ|]. split; [reflexivity|].
    rewrite Hn. rewrite (firstMatch_findOne _ _ _ _ Hi). rewrite Htasks.
    apply (firstMatch_findOne _ _ i). repeat split.
    + apply list_lookup_insert_eq. now apply lookup_lt_Some in Hl.
    + apply matches_keyQuery_live. cbn. auto.
    + intros j d' Hj Hd'. rewrite list_lookup_insert_ne in Hd' by lia.
      destruct (matches _ d') eqn:Hlive; [|reflexivity].
      apply matches_keyQuery_live in Hlive as (_ & Hlive).
      apply matches_keyQuery in Hlive. rewrite (Hfirst j d' Hj Hd') in Hlive.
      discriminate Hlive.
Qed.

Lemma NewTask_name
    taskID attemptID now account application name queue url a method headers
    payload schedule r active db db' t :
  NewTask cronNext taskID attemptID now account application name queue url a
    method headers payload schedule r active db = (db', Some t, None) ->
  Name t = (if name =? "" then Hex taskID else name).
Proof.
  intros Hcall.
  destruct (NewTask_success _ _ _ _ _ _ _ _ _ _ _ _ _ _ _ _ _ _ Hcall)
    as (at_ & Hrun & [(_ & -> & _) | (i & d & Hi & -> & _)]); [reflexivity|].
  destruct Hi as (_ & Hm & _). apply matches_keyQuery in Hm. apply Hm.
Qed.

(** X7. A task NewTask has created or replaced is the one GetTask returns under
    its key, also when the key had been deleted before; with an empty name
    the key is the hexadecimal task id. *)
Theorem NewTask_then_GetTask
    taskID attemptID now account application name queue url a method headers
    payload schedule r active db db' t :
  NewTask cronNext taskID attemptID now account application name queue url a
    method headers payload schedule r active db = (db', Some t, None) ->
  GetTask account application (if name =? "" then Hex taskID else name) db' =
  (Some t, None) /\ Deleted t = false.
Proof.
  intros Hcall. rewrite <- (NewTask_name _ _ _ _ _ _ _ _ _ _ _ _ _ _ _ _ _ _ Hcall).
  destruct (NewTask_stored _ _ _ _ _ _ _ _ _ _ _ _ _ _ _ _ _ _ Hcall)
    as (_ & _ & Hlive & Hfind).
  split; [|exact Hlive]. unfold GetTask. now rewrite Hfind.
Qed.

(** X8. In a store without duplicate ids, a task NewTask has created or replaced
    is the one GetTaskByID returns under its id. *)
Theorem NewTask_then_GetTaskByID
    taskID attemptID now account application name queue url a method headers
    payload schedule r active db db' t :
  NoDup (idOf <$> tasks db) ->
  NewTask cronNext taskID attemptID now account application name queue url a
    method headers payload schedule r active db = (db', Some t, None) ->
  GetTaskByID (ID t) db' = (Some t, None).
Proof.
  intros Hids Hcall.
  destruct (NewTask_success _ _ _ _ _ _ _ _ _ _ _ _ _ _ _ _ _ _ Hcall)
    as (at_ & Hrun & [(Hfree & -> & Htasks & _) | (i & d & Hi & -> & Htasks)]).
  - unfold GetTaskByID. rewrite Htasks, findOne_snoc; [reflexivity| |].
    + intros d Hd. destruct (matches _ d) eqn:Hm; [|reflexivity].
      apply matches_byId in Hm. now destruct (Hfree d Hd).
    + now apply matches_byId.
  - unfold GetTaskByID. rewrite Htasks.
    destruct Hi as (Hl & _ & _).
    rewrite (firstMatch_findOne _ _ i
               {| row := replaced (row d)
                           (buildTask taskID account application name queue url a
                              method headers payload schedule r active at_) active;
                  extra := extra d |}); [reflexivity|].
    repeat split.
    + apply list_lookup_insert_eq. now apply lookup_lt_Some in Hl.
    + now apply matches_byId.
    + intros j d' Hj Hd'. rewrite list_lookup_insert_ne in Hd' by lia.
      destruct (matches _ d') eqn:Hm; [|reflexivity].
      apply matches_byId in Hm. cbn in Hm.
      assert (i = j); [|lia].
      apply (NoDup_lookup (idOf <$> tasks db) i j (idOf d)); [exact Hids| |].
      * now rewrite list_lookup_fmap, Hl.
      * rewrite list_lookup_fmap, Hd'. cbn. unfold idOf. now rewrite Hm.
Qed.

(** X9. A task NewTask has created or replaced is stored in a document that
    the query of GetTasks selects when the call has no filter, and under
    every set of filters the task passes. *)
Theorem NewTask_then_GetTasks
    taskID attemptID now account application name queue url a method headers
    payload schedule r active db db' t :
  NewTask cronNext taskID attemptID now account application name queue url a
    method headers payload schedule r active db = (db', Some t, None) ->
  exists d,
    d ∈ tasks db' /\ row d = t /\
    (forall lp, Filters lp = ∅ ->
       matches (GetTasksQuery account application lp) d = true) /\
    (forall lp, selected account application lp t ->
       matches (GetTasksQuery account application lp) d = true).
Proof.
  intros Hcall.
  destruct (NewTask_stored _ _ _ _ _ _ _ _ _ _ _ _ _ _ _ _ _ _ Hcall)
    as (Ha & Happ & Hlive & Hfind).
  apply findOne_firstMatch in Hfind as (i & Hi & _).
  set (d := {| row := t; extra := _ |}) in Hi.
  exists d. split; [apply list_elem_of_lookup; eauto|]. split; [reflexivity|].
  split.
  - intros lp Hnone. apply matches_GetTasksQuery. unfold selected.
    rewrite Hnone, !lookup_empty. cbn [row d]. auto.
  - intros lp Hsel. now apply matches_GetTasksQuery.
Qed.

(** ** What the operations keep *)

(** The rows of the store after each operation, for a property of rows that
    the task NewTask builds has, and that replacing, finalizing and deleting
    keep. *)
Section Rows.

Variable P : Task -> Prop.

Hypothesis P_built :
  forall taskID account application name queue url a method headers payload
         schedule r active at_,
    P (buildTask taskID account application name queue url a method headers
         payload schedule r active at_).
Hypothesis P_replaced :
  forall old task active, P old -> P task -> P (replaced old task active).
Hypothesis P_finalized :
  forall old status now,
    P old -> P (finalized old (outcome cronNext old status now) now).
Hypothesis P_deleted : forall t, P t -> P (set_Deleted true t).

Lemma allRows_NewTask
    taskID attemptID now account application name queue url a method headers
    payload schedule r active db :
  allRows P db ->
  allRows P (fst (fst (NewTask cronNext taskID attemptID now account application
                         name queue url a method headers payload schedule r
                         active db))).
Proof.
  intros Hall.
  destruct (firstRun cronNext schedule now) as [at_ [e|]] eqn:Hrun.
  { unfold NewTask. now rewrite Hrun. }
  destruct (NewTask_cases cronNext taskID attemptID now account application name
              queue url a method headers payload schedule r active db at_ Hrun)
    as [(_ & ->) | [(i & d & atts & Hi & ->) | (_ & ->)]]; cbn [fst].
  - intros x Hx. cbn [tasks] in Hx. apply elem_of_app in Hx as [Hx|Hx]; auto.
    apply list_elem_of_singleton in Hx as ->. apply P_built.
  - intros x Hx. cbn [tasks] in Hx.
    apply elem_of_insert_inv in Hx as [->|Hx]; auto.
    apply P_replaced; [|apply P_built].
    apply Hall. apply list_elem_of_lookup. exists i. apply Hi.
  - exact Hall.
Qed.

Lemma allRows_NextAttemptForTask attemptID now taskID status db :
  allRows P db ->
  allRows P (fst (fst (NextAttemptForTask cronNext attemptID now taskID status db))).
Proof.
  intros Hall.
  destruct (findOne (byId taskID) (tasks db)) as [d|] eqn:Hfind.
  - destruct (NextAttemptForTask_found cronNext attemptID now taskID status db d Hfind)
      as (i & d' & Hi & _ & Hrow & _ & Hcall).
    rewrite Hcall.
    assert (Hd' : P (row d')).
    { rewrite Hrow. apply P_finalized, Hall, list_elem_of_lookup.
      exists i. apply Hi. }
    destruct (Active _ && _ && _); cbn [fst]; intros x Hx; cbn [tasks] in Hx;
      apply elem_of_insert_inv in Hx as [->|Hx]; auto.
  - unfold NextAttemptForTask. now rewrite Hfind.
Qed.

Lemma allRows_updateAll q db db' :
  allRows P db -> tasks db' = updateAllTasks q deletedChange (tasks db) ->
  allRows P db'.
Proof.
  intros Hall Htasks x Hx. rewrite Htasks in Hx. unfold updateAllTasks in Hx.
  apply list_elem_of_In, in_map_iff in Hx as (d & <- & Hd).
  apply list_elem_of_In in Hd.
  destruct (matches q d); [|auto]. rewrite deleted_doc. cbn. auto.
Qed.

End Rows.

Lemma o_errors_range task status now :
  0 <= o_errors (outcome cronNext task status now) <= 1.
Proof.
  destruct (String.eqb_spec status "error") as [->|Hne].
  - rewrite outcome_error.
    destruct (Attempts (retry task) <? MaxAttempts (retry task))%Z; cbn; lia.
  - destruct (outcome_other cronNext task status now Hne) as (_ & -> & _). lia.
Qed.

(** X10. No operation lets a task count more errors than executions: NewTask
    starts both counters at 0 and keeps those of a row it replaces,
    NextAttemptForTask adds one execution and at most one error, and the two
    deletions leave the counters alone. *)
Theorem counters_kept :
  (forall taskID attemptID now account application name queue url a method
          headers payload schedule r active db,
     allRows countersOK db ->
     allRows countersOK
       (fst (fst (NewTask cronNext taskID attemptID now account application name
                    queue url a method headers payload schedule r active db)))) /\
  (forall attemptID now taskID status db,
     allRows countersOK db ->
     allRows countersOK
       (fst (fst (NextAttemptForTask cronNext attemptID now taskID status db)))) /\
  (forall account application name db,
     allRows countersOK db ->
     allRows countersOK (fst (DeleteTask account application name db))) /\
  (forall account application db,
     allRows countersOK db ->
     allRows countersOK (fst (DeleteTasks account application db))).
Proof.
  assert (Hrepl : forall old task active,
            countersOK old -> countersOK task -> countersOK (replaced old task active))
    by (intros old task active Hold _; exact Hold).
  assert (Hfin : forall old status now,
            countersOK old ->
            countersOK (finalized old (outcome cronNext old status now) now)).
  { intros old status now Hold. unfold countersOK in *. cbn.
    pose proof (o_errors_range old status now). lia. }
  assert (Hdel : forall t, countersOK t -> countersOK (set_Deleted true t))
    by (intros t Ht; exact Ht).
  split; [|split; [|split]].
  - intros. apply allRows_NewTask; auto.
    intros. unfold countersOK; cbn; lia.
  - intros. apply allRows_NextAttemptForTask; auto.
  - intros account application name db Hall.
    eapply allRows_updateAll; [exact Hdel|exact Hall|reflexivity].
  - intros account application db Hall.
    eapply allRows_updateAll; [exact Hdel|exact Hall|reflexivity].
Qed.

(** X11. No operation stores a payload with a method other than POST: NewTask
    clears the payload of what it builds, writes method and payload together
    when it replaces a row, and nothing else writes either field. *)
Theorem payload_only_with_POST :
  (forall taskID attemptID now account application name queue url a method
          headers payload schedule r active db,
     allRows payloadOK db ->
     allRows payloadOK
       (fst (fst (NewTask cronNext taskID attemptID now account application name
                    queue url a method headers payload schedule r active db)))) /\
  (forall attemptID now taskID status db,
     allRows payloadOK db ->
     allRows payloadOK
       (fst (fst (NextAttemptForTask cronNext attemptID now taskID status db)))) /\
  (forall account application name db,
     allRows payloadOK db ->
     allRows payloadOK (fst (DeleteTask account application name db))) /\
  (forall account application db,
     allRows payloadOK db ->
     allRows payloadOK (fst (DeleteTasks account application db))).
Proof.
  assert (Hrepl : forall old task active,
            payloadOK old -> payloadOK task -> payloadOK (replaced old task active))
    by (intros old task active _ Htask; exact Htask).
  assert (Hfin : forall old status now,
            payloadOK old ->
            payloadOK (finalized old (outcome cronNext old status now) now))
    by (intros old status now Hold; exact Hold).
  assert (Hdel : forall t, payloadOK t -> payloadOK (set_Deleted true t))
    by (intros t Ht; exact Ht).
  split; [|split; [|split]].
  - intros. apply allRows_NewTask; auto.
    intros taskID' account' application' name' queue' url' a' method' headers'
      payload' schedule' r' active' at_. unfold payloadOK; cbn.
    destruct ((if method' =? "" then "POST" else method') =? "POST") eqn:Hm.
    + left. now apply String.eqb_eq.
    + right. reflexivity.
  - intros. apply allRows_NextAttemptForTask; auto.
  - intros account application name db Hall.
    eapply allRows_updateAll; [exact Hdel|exact Hall|reflexivity].
  - intros account application db Hall.
    eapply allRows_updateAll; [exact Hdel|exact Hall|reflexivity].
Qed.

(** X12. The unique index holds through every operation: from a store in which no
    two tasks share an id or a key, NewTask, NextAttemptForTask, DeleteTask
    and DeleteTasks lead to such a store; the last three leave the ids and
    the keys of the rows exactly as they are. *)
Theorem uniqueStore_kept :
  (forall taskID attemptID now account application name queue url a method
          headers payload schedule r active db,
     uniqueStore db ->
     uniqueStore
       (fst (fst (NewTask cronNext taskID attemptID now account application name
                    queue url a method headers payload schedule r active db)))) /\
  (forall attemptID now taskID status db,
     let db' := fst (fst (NextAttemptForTask cronNext attemptID now taskID status db)) in
     idOf <$> tasks db' = idOf <$> tasks db /\
     keyOf <$> tasks db' = keyOf <$> tasks db) /\
  (forall account application name db,
     let db' := fst (DeleteTask account application name db) in
     idOf <$> tasks db' = idOf <$> tasks db /\
     keyOf <$> tasks db' = keyOf <$> tasks db) /\
  (forall account application db,
     let db' := fst (DeleteTasks account application db) in
     idOf <$> tasks db' = idOf <$> tasks db /\
     keyOf <$> tasks db' = keyOf <$> tasks db).
Proof.
  assert (Hmark : forall q d,
            idOf (if matches q d then applyChange deletedChange d else d) = idOf d /\
            keyOf (if matches q d then applyChange deletedChange d else d) = keyOf d).
  { intros q d. now destruct (matches q d). }
  split; [|split; [|split]].
  - intros taskID attemptID now account application name queue url a method
      headers payload schedule r active db [Hids Hkeys].
    destruct (firstRun cronNext schedule now) as [at_ [e|]] eqn:Hrun.
    { unfold NewTask. rewrite Hrun. now split. }
    destruct (NewTask_cases cronNext taskID attemptID now account application name
                queue url a method headers payload schedule r active db at_ Hrun)
      as [(Hins & ->) | [(i & d & atts & Hi & ->) | (_ & ->)]];
      cbn [fst]; unfold uniqueStore; cbn [tasks].
    + apply Insert_inl in Hins as [_ Hfree].
      rewrite !fmap_app. cbn [fmap list_fmap]. split.
      * apply NoDup_app. split; [exact Hids|]. split; [|apply NoDup_singleton].
        intros x Hx Hnew. apply list_elem_of_singleton in Hnew.
        apply list_elem_of_fmap in Hx as (d & -> & Hd).
        now destruct (Hfree d Hd).
      * apply NoDup_app. split; [exact Hkeys|]. split; [|apply NoDup_singleton].
        intros x Hx Hnew. apply list_elem_of_singleton in Hnew.
        apply list_elem_of_fmap in Hx as (d & -> & Hd).
        destruct (Hfree d Hd) as [_ Hk].
        assert (Hyes : sameKey
                  (buildTask taskID account application name queue url a method
                     headers payload schedule r active at_) d = true).
        { apply sameKey_spec. unfold keyOf in Hnew. cbn [row] in Hnew.
          injection Hnew as -> -> ->. auto. }
        rewrite Hk in Hyes. discriminate Hyes.
    + destruct Hi as (Hl & Hm & _). apply matches_keyQuery in Hm as (Ha & Happ & Hn).
      rewrite (fmap_insert_same idOf _ i d), (fmap_insert_same keyOf _ i d);
        auto.
    + now split.
  - intros attemptID now taskID status db db'. subst db'.
    destruct (findOne (byId taskID) (tasks db)) as [d|] eqn:Hfind.
    + destruct (NextAttemptForTask_found cronNext attemptID now taskID status db d Hfind)
        as (i & d' & (Hl & _) & Hd' & _ & _ & Hcall).
      rewrite Hcall.
      destruct (applyChange_key
                  (finalizeChange (outcome cronNext (row d) status now) now) d)
        as (Hid & Ha & Happ & Hn & _).
      rewrite <- Hd' in Hid, Ha, Happ, Hn.
      assert (Htasks : forall x y : DB * option Attempt * option error,
                tasks (fst (fst x)) = <[i := d']> (tasks db) ->
                tasks (fst (fst y)) = <[i := d']> (tasks db) ->
                forall b : bool,
                  tasks (fst (fst (if b then x else y))) = <[i := d']> (tasks db))
        by (intros x y Hx Hy []; assumption).
      rewrite Htasks by reflexivity.
      rewrite (fmap_insert_same idOf _ i d), (fmap_insert_same keyOf _ i d); auto.
      unfold keyOf. congruence.
    + unfold NextAttemptForTask. rewrite Hfind. now split.
  - intros account application name db db'. subst db'.
    unfold DeleteTask, updateAllTasks. cbn [fst tasks].
    split; apply fmap_map_same; intros d; apply Hmark.
  - intros account application db db'. subst db'.
    unfold DeleteTasks, updateAllTasks. cbn [fst tasks].
    split; apply fmap_map_same; intros d; apply Hmark.
Qed.

(** ** The REST handlers *)

Variable idTime : ObjectId -> string.
Variable UnixToRFC3339 : Z -> string.

(** X13. PutTask never reaches NewTaskFromModel with a nil task: whenever NewTask
    returns no error it returns a task. *)
Theorem PutTask_never_panics taskID attemptID now params body db :
  snd (restapi.PutTask cronNext idTime UnixToRFC3339 taskID attemptID now params
         body db) <> restapi.Panic.
Proof.
  unfold restapi.PutTask.
  destruct params as [[[accountID applicationName] taskName]|e]; [|discriminate].
  destruct body as [rt|e]; [|discriminate].
  destruct (firstRun cronNext (restapi.Schedule rt) now) as [at_ [e|]] eqn:Hrun.
  - unfold NewTask. rewrite Hrun. discriminate.
  - destruct (NewTask_returns cronNext taskID attemptID now accountID
                applicationName taskName (restapi.Queue rt) (restapi.URL rt)
                (restapi.HTTPAuth rt) (restapi.Method rt) (restapi.Headers rt)
                (restapi.Payload rt) (restapi.Schedule rt) (restapi.Retry rt)
                (restapi.requestedActive rt) db at_ Hrun)
      as (db' & t & err & -> & _).
    destruct err; discriminate.
Qed.

(** X14. What PutTask has answered with is what a GET of the task answers with
    next: the same JSON, under the name of the request or, for a request
    without a name, under the hexadecimal task id. *)
Theorem PutTask_then_GetTask
    taskID attemptID now accountID applicationName taskName rt db db' j :
  restapi.PutTask cronNext idTime UnixToRFC3339 taskID attemptID now
    (inl (accountID, applicationName, taskName)) (inl rt) db =
  (db', restapi.Json j) ->
  restapi.GetTask idTime UnixToRFC3339
    (inl (accountID, applicationName,
          if taskName =? "" then Hex taskID else taskName)) db' =
  restapi.ReplyJson j.
Proof.
  unfold restapi.PutTask.
  destruct (NewTask cronNext taskID attemptID now accountID applicationName
              taskName (restapi.Queue rt) (restapi.URL rt) (restapi.HTTPAuth rt)
              (restapi.Method rt) (restapi.Headers rt) (restapi.Payload rt)
              (restapi.Schedule rt) (restapi.Retry rt)
              (restapi.requestedActive rt) db)
    as [[db1 [t|]] [e|]] eqn:Hcall; try discriminate.
  intros [= <- <-].
  rewrite <- (NewTask_name _ _ _ _ _ _ _ _ _ _ _ _ _ _ _ _ _ _ Hcall).
  destruct (NewTask_stored _ _ _ _ _ _ _ _ _ _ _ _ _ _ _ _ _ _ Hcall)
    as (_ & _ & _ & Hfind).
  unfold restapi.GetTask, GetTask. now rewrite Hfind.
Qed.

End Further.

(** ** Outcomes *)

Section Outcomes.

Variable cronNext : string -> Z -> option Z.

(** X15. NextAttemptForTask never enqueues an attempt for a deleted task, and
    leaves it deleted: the outcome is recorded on the row and the attempts
    stay as they are. *)
Theorem NextAttemptForTask_deleted attemptID now taskID status db d :
  findOne (byId taskID) (tasks db) = Some d ->
  Deleted (row d) = true ->
  exists db' d',
    NextAttemptForTask cronNext attemptID now taskID status db = (db', None, None) /\
    attempts db' = attempts db /\
    findOne (byId taskID) (tasks db') = Some d' /\
    Deleted (row d') = true /\
    Executions (row d') = Executions (row d) + 1.
Proof.
  intros Hfind Hdel.
  destruct (NextAttemptForTask_found cronNext attemptID now taskID status db d Hfind)
    as (i & d' & _ & _ & Hrow & Hfind' & Hcall).
  assert (Hdel' : Deleted (row d') = true) by (rewrite Hrow; exact Hdel).
  rewrite Hdel', andb_false_r in Hcall.
  eexists _, d'. split; [exact Hcall|]. split; [reflexivity|].
  split; [exact Hfind'|]. split; [exact Hdel'|]. now rewrite Hrow.
Qed.

(** X16. NextAttemptForTask touches one row and appends at most one attempt: the
    number of tasks stays, every task with another id stays as it is, no
    existing attempt is written to, and an attempt that is added belongs to
    the task. For an id that is not in the store it returns not found and
    changes nothing. *)
Theorem NextAttemptForTask_frame attemptID now taskID status db :
  let result := NextAttemptForTask cronNext attemptID now taskID status db in
  let db' := fst (fst result) in
  length (tasks db') = length (tasks db) /\
  (forall j d, tasks db !! j = Some d -> ID (row d) <> taskID ->
               tasks db' !! j = Some d) /\
  (snd (fst result) = None /\ attempts db' = attempts db \/
   exists a, snd (fst result) = Some a /\
             attempts db' = (attempts db ++ [a])%list /\
             AttemptTaskID a = taskID /\ AttemptStatus a = "pending") /\
  (findOne (byId taskID) (tasks db) = None ->
   result = (db, None, Some ErrNotFound)).
Proof.
  intros result db'. subst db' result.
  destruct (findOne (byId taskID) (tasks db)) as [d|] eqn:Hfind.
  - destruct (NextAttemptForTask_found cronNext attemptID now taskID status db d Hfind)
      as (i & d' & (Hl & Hm & _) & _ & _ & Hfind' & Hcall).
    apply matches_byId in Hm.
    assert (Hid : ID (row d') = taskID).
    { apply matches_byId.
      destruct (findOne_firstMatch _ _ _ Hfind') as (k & _ & Hk & _). exact Hk. }
    rewrite Hcall.
    destruct (Active (row d') && negb (At (row d') =? 0)%Z && negb (Deleted (row d')));
      cbn [fst snd tasks attempts]; rewrite length_insert;
      (split; [reflexivity|]);
      (split; [intros j x Hj Hx; rewrite list_lookup_insert_ne; [exact Hj|];
               intros <-; rewrite Hl in Hj; injection Hj as <-; contradiction|]);
      (split; [|discriminate]).
    + right. eexists. repeat split. exact Hid.
    + left. split; reflexivity.
  - unfold NextAttemptForTask. rewrite Hfind. cbn [fst snd].
    repeat split; auto.
Qed.

(** X17. An error whose retry is granted makes the task active again, whatever
    its active flag was: the row gets the retry time, the status "retrying"
    and active = true, and unless the task is deleted an attempt is enqueued
    at the retry time. *)
Theorem NextAttemptForTask_retry_reactivates attemptID now taskID db d at_ :
  findOne (byId taskID) (tasks db) = Some d ->
  NextAttempt (retry (row d)) now = (at_, None) ->
  0 < at_ ->
  Deleted (row d) = false ->
  exists db' a d',
    NextAttemptForTask cronNext attemptID now taskID "error" db = (db', Some a, None) /\
    AttemptAt a = at_ /\ AttemptStatus a = "pending" /\
    attempts db' = (attempts db ++ [a])%list /\
    findOne (byId taskID) (tasks db') = Some d' /\
    Active (row d') = true /\ At (row d') = at_ /\ Status (row d') = "retrying".
Proof.
  intros Hfind Hnext Hpos Hlive.
  destruct (NextAttemptForTask_found cronNext attemptID now taskID "error" db d Hfind)
    as (i & d' & _ & _ & Hrow & Hfind' & Hcall).
  assert (Hout : outcome cronNext (row d) "error" now =
                 {| o_status := "retrying"; o_at := at_; o_err := None;
                    o_errors := 1; o_retryAttempts := 1 |}).
  { rewrite outcome_error. unfold NextAttempt in Hnext.
    destruct (Attempts (retry (row d)) <? MaxAttempts (retry (row d)))%Z;
      [|discriminate Hnext].
    now injection Hnext as ->. }
  rewrite Hout in Hrow.
  assert (Hact : Active (row d') = true).
  { rewrite Hrow. cbn. now apply Z.gtb_lt. }
  assert (Hat : At (row d') = at_) by now rewrite Hrow.
  assert (Hdel : Deleted (row d') = false) by now rewrite Hrow.
  rewrite Hact, Hdel, Hat in Hcall.
  destruct (Z.eqb_spec at_ 0) as [Hz|_]; [lia|]. cbn in Hcall.
  eexists _, _, d'. split; [exact Hcall|]. cbn.
  repeat split; auto. now rewrite Hrow.
Qed.

(** X18. An outcome that is neither "success" nor "error" is stored as it comes:
    it becomes the status, counts as an execution and as one more retry
    attempt, and counts as no error; last_error and last_success stay. *)
Theorem NextAttemptForTask_other_status attemptID now taskID status db d :
  findOne (byId taskID) (tasks db) = Some d ->
  status <> "error" -> status <> "success" ->
  let db' := fst (fst (NextAttemptForTask cronNext attemptID now taskID status db)) in
  exists d',
    findOne (byId taskID) (tasks db') = Some d' /\
    Status (row d') = status /\
    Executions (row d') = Executions (row d) + 1 /\
    Errors (row d') = Errors (row d) /\
    Attempts (retry (row d')) = Attempts (retry (row d)) + 1 /\
    LastError (row d') = LastError (row d) /\
    LastSuccess (row d') = LastSuccess (row d).
Proof.
  intros Hfind Herr Hsucc db'.
  destruct (NextAttemptForTask_found cronNext attemptID now taskID status db d Hfind)
    as (i & d' & _ & _ & Hrow & Hfind' & Hcall).
  exists d'. split.
  { subst db'. rewrite Hcall. now destruct (Active _ && _ && _). }
  assert (Hout : o_status (outcome cronNext (row d) status now) = status /\
                 o_errors (outcome cronNext (row d) status now) = 0 /\
                 o_retryAttempts (outcome cronNext (row d) status now) = 1).
  { unfold outcome.
    destruct (String.eqb_spec status "error"); [contradiction|].
    destruct (String.eqb_spec status "success"); [contradiction|].
    destruct (Active (row d) && negb (Schedule (row d) =? ""));
      [destruct (nextRun cronNext (Schedule (row d)) now)|]; auto. }
  destruct Hout as (Hs & He & Hr).
  rewrite Hrow. cbn. rewrite Hs, He, Hr.
  destruct (String.eqb_spec status "error"); [contradiction|].
  destruct (String.eqb_spec status "success"); [contradiction|].
  repeat split; lia.
Qed.

End Outcomes.

(** ** Lookups that agree *)

Lemma findOne_byId_unique (l : list TaskDoc) i d :
  NoDup (idOf <$> l) -> l !! i = Some d -> findOne (byId (ID (row d))) l = Some d.
Proof.
  intros Hids Hi. apply (firstMatch_findOne _ _ i). repeat split; auto.
  - now apply matches_byId.
  - intros j d' Hj Hd'. destruct (matches _ d') eqn:Hm; [|reflexivity].
    apply matches_byId in Hm. assert (i = j); [|lia].
    apply (NoDup_lookup (idOf <$> l) i j (idOf d)); [exact Hids| |].
    + now rewrite list_lookup_fmap, Hi.
    + rewrite list_lookup_fmap, Hd'. cbn. unfold idOf. now rewrite Hm.
Qed.

Lemma findOne_key_unique (l : list TaskDoc) i d :
  NoDup (keyOf <$> l) -> l !! i = Some d -> Deleted (row d) = false ->
  findOne (<["deleted" := CEq (BBool false)]>
             (keyQuery (Account (row d)) (Application (row d)) (Name (row d)))) l =
  Some d.
Proof.
  intros Hkeys Hi Hlive. apply (firstMatch_findOne _ _ i). repeat split; auto.
  - now apply matches_keyQuery_live.
  - intros j d' Hj Hd'. destruct (matches _ d') eqn:Hm; [|reflexivity].
    apply matches_keyQuery_live in Hm as (_ & Ha & Happ & Hn). assert (i = j); [|lia].
    apply (NoDup_lookup (keyOf <$> l) i j (keyOf d)); [exact Hkeys| |].
    + now rewrite list_lookup_fmap, Hi.
    + rewrite list_lookup_fmap, Hd'. cbn. unfold keyOf. now rewrite Ha, Happ, Hn.
Qed.

(** X19. In a store without duplicate ids, the task GetTask returns under a key is
    the task GetTaskByID returns under its id. *)
Theorem GetTask_then_GetTaskByID account application name db t :
  NoDup (idOf <$> tasks db) ->
  GetTask account application name db = (Some t, None) ->
  GetTaskByID (ID t) db = (Some t, None).
Proof.
  intros Hids. unfold GetTask, GetTaskByID.
  destruct (findOne _ (tasks db)) as [d|] eqn:Hfind; [|discriminate].
  intros [= <-]. apply findOne_firstMatch in Hfind as (i & Hi & _).
  now rewrite (findOne_byId_unique _ i d).
Qed.

(** X20. In a store without duplicate keys, every task GetTasks lists is the task
    GetTask returns under its name. *)
Theorem GetTasks_then_GetTask account application lp db t :
  NoDup (keyOf <$> tasks db) ->
  t ∈ List (fst (GetTasks account application lp db)) ->
  GetTask account application (Name t) db = (Some t, None).
Proof.
  intros Hkeys Ht. unfold GetTasks, getItems in Ht. cbn [fst List] in Ht.
  apply (fun H => elem_of_sublist _ _ _ H (sublist_take _ _)) in Ht.
  apply (fun H => elem_of_sublist _ _ _ H (sublist_drop _ _)) in Ht.
  apply list_elem_of_In, in_map_iff in Ht as (d & <- & Hd).
  apply list_elem_of_In, list_elem_of_filter in Hd as [Hm Hd].
  apply matches_GetTasksQuery in Hm as (Ha & Happ & Hlive & _).
  apply list_elem_of_lookup in Hd as (i & Hi).
  unfold GetTask. rewrite <- Ha, <- Happ.
  now rewrite (findOne_key_unique _ i d).
Qed.

Lemma findOne_map_fmap q (f : TaskDoc -> TaskDoc) l :
  (forall d, matches q (f d) = matches q d) ->
  findOne q (map f l) = f <$> findOne q l.
Proof.
  unfold findOne. intros Hm. induction l as [|x l IH]; simpl; [reflexivity|].
  rewrite Hm. now destruct (matches q x).
Qed.

Section Composition.

Variable cronNext : string -> Z -> option Z.

(** X21. Once DeleteTask has run, an outcome reported for the task is recorded
    but schedules nothing: NextAttemptForTask returns no attempt and leaves
    the attempts as they are. *)
Theorem DeleteTask_then_NextAttemptForTask
    attemptID now taskID status account application name db d :
  findOne (byId taskID) (tasks db) = Some d ->
  keyOf d = (account, application, name) ->
  let db1 := fst (DeleteTask account application name db) in
  exists db',
    NextAttemptForTask cronNext attemptID now taskID status db1 = (db', None, None) /\
    attempts db' = attempts db1 /\
    (Deleted <$> taskRow taskID db') = Some true.
Proof.
  intros Hfind Hkey db1.
  assert (Hfind1 : findOne (byId taskID) (tasks db1) = Some (markDeleted d)).
  { subst db1. unfold DeleteTask, updateAllTasks. cbn [fst tasks].
    rewrite findOne_map_fmap, Hfind.
    - cbn [fmap option_fmap option_map]. apply matches_key_keyOf in Hkey.
      rewrite Hkey. reflexivity.
    - intros x. destruct (matches (keyQuery account application name) x);
        [|reflexivity].
      rewrite deleted_doc. apply eq_true_iff_eq. now rewrite !matches_byId. }
  destruct (NextAttemptForTask_found cronNext attemptID now taskID status db1
              (markDeleted d) Hfind1) as (i & d' & _ & _ & Hrow & Hfind' & Hcall).
  assert (Hdel' : Deleted (row d') = true) by now rewrite Hrow.
  rewrite Hdel', andb_false_r in Hcall.
  eexists. split; [exact Hcall|]. split; [reflexivity|].
  unfold taskRow. cbn [tasks]. rewrite Hfind'. cbn. now rewrite Hdel'.
Qed.

(** X22. On a free id and a free key NewTask inserts the task it has built, at the
    end of the store, and enqueues one pending attempt for it at the first
    run, also when the task is declared inactive. *)
Theorem NewTask_inserts
    taskID attemptID now account application name queue url a method headers
    payload schedule r active db at_ :
  firstRun cronNext schedule now = (at_, None) ->
  let task := buildTask taskID account application name queue url a method
                headers payload schedule r active at_ in
  (forall d, d ∈ tasks db ->
     ID (row d) <> taskID /\ keyOf d <> (account, application, Name task)) ->
  NewTask cronNext taskID attemptID now account application name queue url a
    method headers payload schedule r active db =
  ({| tasks := (tasks db ++ [{| row := task; extra := ∅ |}])%list;
      attempts := (attempts db ++ [pendingFor attemptID task])%list |},
   Some task, None) /\
  AttemptStatus (pendingFor attemptID task) = "pending" /\
  AttemptAt (pendingFor attemptID task) = at_ /\
  Active task = (at_ >? 0)%Z && active.
Proof.
  intros Hrun task Hfree.
  split; [|repeat split].
  destruct (NewTask_cases cronNext taskID attemptID now account application name
              queue url a method headers payload schedule r active db at_ Hrun)
    as [(_ & Hres) | [(i & d & atts & Hi & _) | ((d & Hd & Hid) & _)]].
  - exact Hres.
  - exfalso. destruct Hi as (Hl & Hm & _).
    apply matches_key_keyOf in Hm.
    refine (proj2 (Hfree d _) Hm). apply list_elem_of_lookup. eauto.
  - exfalso. now apply (proj1 (Hfree d Hd)).
Qed.

(** X23. NewTask writes to one row at most: every task with another key stays
    where it is and as it is, and the store grows by one task or not at
    all. *)
Theorem NewTask_frame
    taskID attemptID now account application name queue url a method headers
    payload schedule r active db :
  let db' := fst (fst (NewTask cronNext taskID attemptID now account application
                         name queue url a method headers payload schedule r
                         active db)) in
  (forall j d, tasks db !! j = Some d ->
     keyOf d <> (account, application, if name =? "" then Hex taskID else name) ->
     tasks db' !! j = Some d) /\
  (length (tasks db') = length (tasks db) \/
   length (tasks db') = S (length (tasks db))).
Proof.
  intros db'. subst db'.
  destruct (firstRun cronNext schedule now) as [at_ [e|]] eqn:Hrun.
  { unfold NewTask. rewrite Hrun. cbn. auto. }
  destruct (NewTask_cases cronNext taskID attemptID now account application name
              queue url a method headers payload schedule r active db at_ Hrun)
    as [(_ & ->) | [(i & d & atts & Hi & ->) | (_ & ->)]]; cbn [fst tasks].
  - split.
    + intros j x Hj _. now apply lookup_app_l_Some.
    + right. rewrite length_app. cbn. lia.
  - split.
    + intros j x Hj Hx. rewrite list_lookup_insert_ne; [exact Hj|].
      intros <-. destruct Hi as (Hl & Hm & _). rewrite Hl in Hj.
      injection Hj as <-. now apply matches_key_keyOf in Hm.
    + left. apply length_insert.
  - auto.
Qed.

End Composition.

(** * The further properties on concrete stores *)

(** Three errors in four executions: 75 percent. *)
Lemma ErrorRate_percent_witness :
  0 <= Errors threeOfFour <= Executions threeOfFour /\
  ErrorRate threeOfFour = 75.
Proof.
  assert (Hcount : 0 <= Errors threeOfFour <= Executions threeOfFour)
    by (vm_compute; split; discriminate).
  assert (Hsmall : Errors threeOfFour * 100 < 2 ^ 63) by (vm_compute; reflexivity).
  split; [exact Hcount|].
  destruct (ErrorRate_percent threeOfFour Hcount Hsmall) as [Hrate _].
  rewrite Hrate. vm_compute. reflexivity.
Defined.

(** Deleting a task "m" that does not exist leaves the task "n" in sight. *)
Lemma DeleteTask_other_key_witness :
  GetTask "acc" "app" "n" (fst (DeleteTask "acc" "app" "m" created)) =
  GetTask "acc" "app" "n" created.
Proof.
  apply (DeleteTask_other_key "acc" "app" "m" "acc" "app" "n" created).
  discriminate.
Defined.

Lemma createOnce_created :
  createOnce "t1" "a1" t0 "http://h/ok" emptyDB =
  (created, Some (row createdDoc), None).
Proof. vm_compute. reflexivity. Defined.

(** The task "n", just created, under its key. *)
Lemma NewTask_then_GetTask_witness :
  GetTask "acc" "app" "n" created = (Some (row createdDoc), None) /\
  Deleted (row createdDoc) = false.
Proof.
  exact (NewTask_then_GetTask everyMinute "t1" "a1" t0 "acc" "app" "n" ""
           "http://h/ok" noAuth "" ∅ "x" "" noRetry true emptyDB created
           (row createdDoc) createOnce_created).
Defined.

(** The task "n", just created, under its id. *)
Lemma NewTask_then_GetTaskByID_witness :
  GetTaskByID "t1" created = (Some (row createdDoc), None).
Proof.
  apply (NewTask_then_GetTaskByID everyMinute "t1" "a1" t0 "acc" "app" "n" ""
           "http://h/ok" noAuth "" ∅ "x" "" noRetry true emptyDB created
           (row createdDoc)).
  - simpl. apply NoDup_nil_2.
  - exact createOnce_created.
Defined.

(** The task "n", just created, under the query of a call with no filter. *)
Lemma NewTask_then_GetTasks_witness :
  exists d, d ∈ tasks created /\ row d = row createdDoc /\
            matches (GetTasksQuery "acc" "app" noFilter) d = true.
Proof.
  destruct (NewTask_then_GetTasks everyMinute "t1" "a1" t0 "acc" "app" "n" ""
              "http://h/ok" noAuth "" ∅ "x" "" noRetry true emptyDB created
              (row createdDoc) createOnce_created)
    as (d & Hd & Hrow & Hnone & _).
  exists d. split; [exact Hd|]. split; [exact Hrow|].
  apply Hnone. reflexivity.
Defined.

Lemma allRows_emptyDB (P : Task -> Prop) : allRows P emptyDB.
Proof. intros d Hd. simpl in Hd. inversion Hd. Defined.

(** The counters of the store [created]. *)
Lemma counters_kept_witness : allRows countersOK created.
Proof.
  exact (proj1 (counters_kept everyMinute) "t1" "a1" t0 "acc" "app" "n" ""
           "http://h/ok" noAuth "" ∅ "x" "" noRetry true emptyDB
           (allRows_emptyDB countersOK)).
Defined.

(** The payloads of the store [created]. *)
Lemma payload_only_with_POST_witness : allRows payloadOK created.
Proof.
  exact (proj1 (payload_only_with_POST everyMinute) "t1" "a1" t0 "acc" "app" "n"
           "" "http://h/ok" noAuth "" ∅ "x" "" noRetry true emptyDB
           (allRows_emptyDB payloadOK)).
Defined.

(** The ids and keys of the store [created]. *)
Lemma uniqueStore_kept_witness : uniqueStore created.
Proof.
  apply (proj1 (uniqueStore_kept everyMinute) "t1" "a1" t0 "acc" "app" "n" ""
           "http://h/ok" noAuth "" ∅ "x" "" noRetry true emptyDB).
  split; simpl; apply NoDup_nil_2.
Defined.

(** A PUT of the task "n" on an empty store, then a GET. *)
Lemma PutTask_then_GetTask_witness :
  putResult =
  (fst putResult, restapi.Json (restapi.NewTaskFromModel noTime noTime putTask)) /\
  restapi.GetTask noTime noTime (inl ("acc", "app", "n")) (fst putResult) =
  restapi.ReplyJson (restapi.NewTaskFromModel noTime noTime putTask).
Proof.
  assert (Hput : putResult =
                 (fst putResult,
                  restapi.Json (restapi.NewTaskFromModel noTime noTime putTask)))
    by (vm_compute; reflexivity).
  split; [exact Hput|].
  exact (PutTask_then_GetTask everyMinute noTime noTime "t1" "a1" t0 "acc" "app"
           "n" bodyWithoutActive emptyDB (fst putResult)
           (restapi.NewTaskFromModel noTime noTime putTask) Hput).
Defined.

(** An outcome reported for the deleted task "n". *)
Lemma NextAttemptForTask_deleted_witness :
  findOne (byId "t1") (tasks removed) = Some (markDeleted createdDoc) /\
  exists db',
    NextAttemptForTask everyMinute "a2" (t0 + 5) "t1" "success" removed =
    (db', None, None).
Proof.
  assert (Hfind : findOne (byId "t1") (tasks removed) = Some (markDeleted createdDoc))
    by (vm_compute; reflexivity).
  split; [exact Hfind|].
  destruct (NextAttemptForTask_deleted everyMinute "a2" (t0 + 5) "t1" "success"
              removed (markDeleted createdDoc) Hfind eq_refl)
    as (db' & d' & Hcall & _).
  exists db'. exact Hcall.
Defined.

(** The first attempt of the inactive task "n" fails: the task is active
    again. *)
Lemma NextAttemptForTask_retry_reactivates_witness :
  Active (row inactiveDoc) = false /\
  findOne (byId "t1") (tasks inactive) = Some inactiveDoc /\
  exists db' a,
    NextAttemptForTask everyMinute "a2" (t0 + 5) "t1" "error" inactive =
    (db', Some a, None) /\
    (Active <$> taskRow "t1" db') = Some true.
Proof.
  assert (Hfind : findOne (byId "t1") (tasks inactive) = Some inactiveDoc)
    by (vm_compute; reflexivity).
  assert (Hnext : NextAttempt (retry (row inactiveDoc)) (t0 + 5) =
                  (t0 + 5 + 10000000000, None)) by (vm_compute; reflexivity).
  assert (Hpos : 0 < t0 + 5 + 10000000000) by (vm_compute; reflexivity).
  split; [reflexivity|]. split; [exact Hfind|].
  destruct (NextAttemptForTask_retry_reactivates everyMinute "a2" (t0 + 5) "t1"
              inactive inactiveDoc (t0 + 5 + 10000000000) Hfind Hnext Hpos eq_refl)
    as (db' & a & d' & Hcall & _ & _ & _ & Hfind' & Hact & _).
  exists db', a. split; [exact Hcall|].
  unfold taskRow. rewrite Hfind'. simpl. now rewrite Hact.
Defined.

(** The outcome "canceled" reported for the task "n". *)
Lemma NextAttemptForTask_other_status_witness :
  findOne (byId "t1") (tasks created) = Some createdDoc /\
  exists d',
    findOne (byId "t1")
      (tasks (dbOf (NextAttemptForTask everyMinute "a2" (t0 + 5) "t1" "canceled"
                      created))) = Some d' /\
    Status (row d') = "canceled" /\
    Attempts (retry (row d')) = Attempts (retry (row createdDoc)) + 1.
Proof.
  assert (Hfind : findOne (byId "t1") (tasks created) = Some createdDoc)
    by (vm_compute; reflexivity).
  split; [exact Hfind|].
  destruct (NextAttemptForTask_other_status everyMinute "a2" (t0 + 5) "t1"
              "canceled" created createdDoc Hfind)
    as (d' & Hfind' & Hstatus & _ & _ & Hretry & _); [discriminate|discriminate|].
  exists d'. repeat split; assumption.
Defined.

(** The first attempt of the task "n" succeeds: the counters. *)
Lemma NextAttemptForTask_counters_witness :
  findOne (byId "t1") (tasks created) = Some createdDoc /\
  exists d',
    findOne (byId "t1")
      (tasks (dbOf (NextAttemptForTask everyMinute "a2" (t0 + 5) "t1" "success"
                      created))) = Some d' /\
    Executions (row d') = Executions (row createdDoc) + 1.
Proof.
  assert (Hfind : findOne (byId "t1") (tasks created) = Some createdDoc)
    by (vm_compute; reflexivity).
  split; [exact Hfind|].
  destruct (NextAttemptForTask_counters everyMinute "a2" (t0 + 5) "t1" "success"
              created createdDoc Hfind) as (d' & Hfind' & Hexec & _).
  exists d'. split; [exact Hfind'|exact Hexec].
Defined.

Lemma created_ids : NoDup (idOf <$> tasks created).
Proof. vm_compute. apply NoDup_singleton. Defined.

Lemma created_keys : NoDup (keyOf <$> tasks created).
Proof. vm_compute. apply NoDup_singleton. Defined.

(** The task "n" under its key and under its id. *)
Lemma GetTask_then_GetTaskByID_witness :
  GetTask "acc" "app" "n" created = (Some (row createdDoc), None) /\
  GetTaskByID "t1" created = (Some (row createdDoc), None).
Proof.
  assert (Hget : GetTask "acc" "app" "n" created = (Some (row createdDoc), None))
    by (vm_compute; reflexivity).
  split; [exact Hget|].
  exact (GetTask_then_GetTaskByID "acc" "app" "n" created (row createdDoc)
           created_ids Hget).
Defined.

(** The task "n" in the list and under its key. *)
Lemma GetTasks_then_GetTask_witness :
  List (fst (GetTasks "acc" "app" noFilter created)) = [row createdDoc] /\
  GetTask "acc" "app" "n" created = (Some (row createdDoc), None).
Proof.
  assert (Hlist : List (fst (GetTasks "acc" "app" noFilter created)) =
                  [row createdDoc]) by (vm_compute; reflexivity).
  split; [exact Hlist|].
  apply (GetTasks_then_GetTask "acc" "app" noFilter created
           (row createdDoc) created_keys).
  rewrite Hlist. left.
Defined.

(** The task "n" is deleted, then an outcome is reported for it. *)
Lemma DeleteTask_then_NextAttemptForTask_witness :
  findOne (byId "t1") (tasks created) = Some createdDoc /\
  exists db',
    NextAttemptForTask everyMinute "a2" (t0 + 5) "t1" "success" removed =
    (db', None, None).
Proof.
  assert (Hfind : findOne (byId "t1") (tasks created) = Some createdDoc)
    by (vm_compute; reflexivity).
  split; [exact Hfind|].
  destruct (DeleteTask_then_NextAttemptForTask everyMinute "a2" (t0 + 5) "t1"
              "success" "acc" "app" "n" created createdDoc Hfind eq_refl)
    as (db' & Hcall & _).
  exists db'. exact Hcall.
Defined.

(** The inactive task "n" on an empty store: one attempt all the same. *)
Lemma NewTask_inserts_witness :
  firstRun everyMinute "" t0 = (t0, None) /\
  Active (row inactiveDoc) = false /\
  attempts inactive = [pendingFor "a1" (row inactiveDoc)].
Proof.
  assert (Hrun : firstRun everyMinute "" t0 = (t0, None))
    by (vm_compute; reflexivity).
  assert (Hfree : forall d : TaskDoc, d ∈ tasks emptyDB ->
            ID (row d) <> "t1" /\ keyOf d <> ("acc", "app", Name (row inactiveDoc))).
  { intros d Hd. simpl in Hd. inversion Hd. }
  split; [exact Hrun|]. split; [reflexivity|].
  destruct (NewTask_inserts everyMinute "t1" "a1" t0 "acc" "app" "n" ""
              "http://h/ok" noAuth "" ∅ "x" "" noRetry false emptyDB t0 Hrun Hfree)
    as (Hcall & _).
  unfold inactive. rewrite Hcall. reflexivity.
Defined.
